(** * FinePrint scraper service: a shallow embedding and its properties

    The development follows [backend/services/scraper_service.py],
    [backend/database.py], [backend/main.py] and [backend/config.py]; the
    functions keep their Python names.

    - A Python [str] is the list of its characters, taken among the code
      points below 256; a Python [int] is a [Z].
    - A parsed document is a tree of tags and strings with the operations
      of BeautifulSoup the service calls ([find_all], [get_text]).
    - The calls that leave the service ([requests.get], [urljoin], the
      Playwright session) take their outcome from an environment, [World]; a
      computation yields the trace of those calls and either a value or an
      exception, and [try]/[except]/[finally] are combinators on such
      computations.  Logging is not modelled. *)

From Stdlib Require Import Ascii String ZArith Lia Bool Arith List.
From Stdlib Require Import Numbers.DecimalString.
Import ListNotations.

Set Warnings "-register-all".

Local Open Scope list_scope.
Local Open Scope Z_scope.

(* ================================================================== *)
(** ** Python strings *)
(* ================================================================== *)

Module Py.

(** A Python [str]: the sequence of its characters. *)
Definition str := list ascii.

(** A literal. *)
Definition lit (s : string) : str := list_ascii_of_string s.

(** [len(s)]. *)
Definition len (s : str) : Z := Z.of_nat (length s).

Definition str_eqb (a b : str) : bool :=
  if list_eq_dec ascii_dec a b then true else false.

(** [x in xs] for a list or a set of strings. *)
Definition mem (x : str) (xs : list str) : bool := existsb (str_eqb x) xs.

(** [str.isspace] on one character, which is also what [\s] matches:
    tab to carriage return, the four separators 28..31, the space, NEL and
    the no-break space. *)
Definition is_space (c : ascii) : bool :=
  let n := nat_of_ascii c in
  ((9 <=? n) && (n <=? 13) || (28 <=? n) && (n <=? 32)
   || (n =? 133) || (n =? 160))%nat.

Definition space : ascii := " "%char.
Definition dot : ascii := "."%char.
Definition newline : ascii := "010"%char.

(** [s.startswith(p)]. *)
Fixpoint startswith (p s : str) : bool :=
  match p, s with
  | [], _ => true
  | _ :: _, [] => false
  | a :: p', b :: s' => if ascii_dec a b then startswith p' s' else false
  end.

(** [p in s]: [p] occurs in [s] as a contiguous substring. *)
Fixpoint contains (p s : str) : bool :=
  startswith p s || match s with [] => false | _ :: s' => contains p s' end.

(** [s.lstrip()], [s.rstrip()] and [s.strip()]. *)
Fixpoint lstrip (s : str) : str :=
  match s with
  | [] => []
  | c :: r => if is_space c then lstrip r else s
  end.

Definition rstrip (s : str) : str := rev (lstrip (rev s)).

Definition strip (s : str) : str := rstrip (lstrip s).

(** [sep.join(parts)]. *)
Fixpoint join (sep : str) (parts : list str) : str :=
  match parts with
  | [] => []
  | [p] => p
  | p :: rest => p ++ sep ++ join sep rest
  end.

(** [s.split(c)] for a one-character separator; never the empty list. *)
Fixpoint split (c : ascii) (s : str) : list str :=
  match s with
  | [] => [[]]
  | a :: r =>
      if ascii_dec a c then [] :: split c r
      else match split c r with
           | [] => [[a]]
           | h :: t => (a :: h) :: t
           end
  end.

(** [xs[:n]] for a list or a string: a negative [n] counts from the end. *)
Definition slice_to {A : Type} (xs : list A) (n : Z) : list A :=
  if 0 <=? n then firstn (Z.to_nat n) xs
  else firstn (Z.to_nat (Z.of_nat (length xs) + n)) xs.

(** [str(n)] for an [int]. *)
Definition str_of_int (n : Z) : str := lit (NilZero.string_of_int (Z.to_int n)).

(** [c.lower()] on one character: the ASCII capitals and the Latin-1
    capitals other than the multiplication sign. *)
Definition lower_char (c : ascii) : ascii :=
  let n := nat_of_ascii c in
  if ((65 <=? n) && (n <=? 90)
      || (192 <=? n) && (n <=? 222) && negb (n =? 215))%nat
  then ascii_of_nat (n + 32) else c.

Definition lower (s : str) : str := map lower_char s.

(** The folding [re.I] applies when the pattern is ASCII: only the ASCII
    capitals have an ASCII partner. *)
Definition fold_char (c : ascii) : ascii :=
  let n := nat_of_ascii c in
  if ((65 <=? n) && (n <=? 90))%nat then ascii_of_nat (n + 32) else c.

(** [re.search(p, s, re.I)] for a pattern [p] without metacharacters. *)
Definition isearch (p s : str) : bool :=
  contains (map fold_char p) (map fold_char s).

(** [re.sub(r'\s+', ' ', s)], scanning left to right; [in_run] says that
    the run of whitespace being read has already been replaced. *)
Fixpoint sub_ws (in_run : bool) (s : str) : str :=
  match s with
  | [] => []
  | c :: r =>
      if is_space c
      then (if in_run then sub_ws true r else space :: sub_ws true r)
      else c :: sub_ws false r
  end.

End Py.

Import Py.

(* ================================================================== *)
(** ** Text normalizer: [clean_and_deduplicate_text] *)
(* ================================================================== *)

Definition truncation_marker : str := lit "... [content truncated]".

Definition sentence_sep : str := lit ". ".

(** The [for sentence in sentences] loop with its two accumulators, the
    set [seen] and the list [unique_sentences]. *)
Fixpoint dedup_loop (sentences : list str) (seen unique_sentences : list str)
  : list str :=
  match sentences with
  | [] => unique_sentences
  | sentence0 :: rest =>
      let sentence := strip sentence0 in
      if negb (str_eqb sentence []) && negb (mem sentence seen)
         && (10 <? len sentence)
      then dedup_loop rest (sentence :: seen) (unique_sentences ++ [sentence])
      else dedup_loop rest seen unique_sentences
  end.

(** The candidate sentences, trimmed, in the order of the text. *)
Definition trimmed_sentences (text : str) : list str :=
  map strip (split dot (sub_ws false text)).

(** [unique_sentences] when the loop ends. *)
Definition unique_sentences (text : str) : list str :=
  dedup_loop (split dot (sub_ws false text)) [] [].

(** [cleaned] before the length check. *)
Definition deduplicated (text : str) : str :=
  join sentence_sep (unique_sentences text).

Definition clean_and_deduplicate_text (text : str) (max_length : Z) : str :=
  let cleaned := deduplicated text in
  if max_length <? len cleaned
  then slice_to cleaned max_length ++ truncation_marker
  else cleaned.

Definition default_max_length : Z := 100000.


(* ================================================================== *)
(** ** Parsed documents: the part of BeautifulSoup the service uses *)
(* ================================================================== *)

Module Soup.

(** An attribute value: a string, or the token list that the parser builds
    for a multi-valued attribute such as [class]. *)
Inductive attr_value :=
| Single (v : str)
| Multi (tokens : list str).

(** A node of the parsed tree.  The strings are those [get_text] yields;
    comments and the bodies of [script] and [style] are not among them. *)
Inductive node :=
| NavigableString (s : str)
| Tag (name : str) (attrs : list (str * attr_value)) (contents : list node).

(** [tag.attrs.get(key)]. *)
Fixpoint get (key : str) (attrs : list (str * attr_value)) : option attr_value :=
  match attrs with
  | [] => None
  | (k, v) :: rest => if str_eqb k key then Some v else get key rest
  end.

(** [tag.descendants]: document order, the tag itself excluded. *)
Fixpoint descendants (n : node) : list node :=
  match n with
  | NavigableString _ => []
  | Tag _ _ contents => flat_map (fun c => c :: descendants c) contents
  end.

(** The strings below a node, in document order. *)
Fixpoint all_strings (n : node) : list str :=
  match n with
  | NavigableString s => [s]
  | Tag _ _ contents => flat_map all_strings contents
  end.

Definition nonempty (s : str) : bool := negb (str_eqb s []).

(** [node.get_text(separator=sep, strip=strip_)]. *)
Definition get_text (sep : str) (strip_ : bool) (n : node) : str :=
  join sep (if strip_ then filter nonempty (map strip (all_strings n))
            else all_strings n).

(** A compiled pattern [re.compile(r'p1|p2|...', re.I)] whose alternatives
    are literal. *)
Definition regex := list str.

Definition search (r : regex) (s : str) : bool :=
  existsb (fun p => isearch p s) r.

(** How a pattern filter is matched against an attribute: an absent
    attribute never matches; for a token list, some token or the tokens
    joined by spaces must match. *)
Definition attr_matches (r : regex) (v : option attr_value) : bool :=
  match v with
  | None => false
  | Some (Single s) => search r s
  | Some (Multi tokens) =>
      existsb (search r) tokens || search r (join [space] tokens)
  end.

(** An attribute filter of [find_all]: [key=pattern] or [key=True]. *)
Inductive attr_filter :=
| NoFilter
| Matches (key : str) (r : regex)
| Present (key : str).

Definition passes (f : attr_filter) (attrs : list (str * attr_value)) : bool :=
  match f with
  | NoFilter => true
  | Matches key r => attr_matches r (get key attrs)
  | Present key => match get key attrs with Some _ => true | None => false end
  end.

Definition selected (names : list str) (f : attr_filter) (n : node) : bool :=
  match n with
  | NavigableString _ => false
  | Tag name attrs _ => mem name names && passes f attrs
  end.

(** [soup.find_all(names, key=...)]. *)
Definition find_all (names : list str) (f : attr_filter) (soup : node)
  : list node :=
  filter (selected names f) (descendants soup).

(** [tag[key]] as text, for a tag that has the attribute. *)
Definition attr_text (key : str) (n : node) : str :=
  match n with
  | NavigableString _ => []
  | Tag _ attrs _ =>
      match get key attrs with
      | Some (Single s) => s
      | Some (Multi tokens) => join [space] tokens
      | None => []
      end
  end.

End Soup.

Import Soup.

(* ================================================================== *)
(** ** Fine-print extractor and link discoverer *)
(* ================================================================== *)

(** [TERMS_PATTERNS]. *)
Definition TERMS_PATTERNS : list str :=
  [lit "terms"; lit "t&c"; lit "t-c"; lit "conditions"; lit "legal";
   lit "disclaimer"; lit "eligibility"; lit "requirements"; lit "privacy";
   lit "policy"; lit "agreement"].

(** [re.compile(r'footer', re.I)]. *)
Definition footer_re : regex := [lit "footer"].

(** [re.compile(r'disclaimer|fine-?print|legal|terms', re.I)]. *)
Definition disclaimer_re : regex :=
  [lit "disclaimer"; lit "fineprint"; lit "fine-print"; lit "legal";
   lit "terms"].

(** The body shared by the four loops: the stripped text of each element,
    appended when it is not empty. *)
Definition texts_of (elements : list node) : list str :=
  filter nonempty (map (get_text [space] true) elements).

Definition footers (soup : node) : list node :=
  find_all [lit "footer"; lit "div"] (Matches (lit "class") footer_re) soup.

Definition disclaimers (soup : node) : list node :=
  find_all [lit "div"; lit "section"; lit "p"; lit "span"]
           (Matches (lit "class") disclaimer_re) soup.

Definition disclaimers_by_id (soup : node) : list node :=
  find_all [lit "div"; lit "section"; lit "p"]
           (Matches (lit "id") disclaimer_re) soup.

Definition small_texts (soup : node) : list node :=
  find_all [lit "small"] NoFilter soup.

(** The lines kept by step 4.  The dagger and the double dagger are not
    characters of the modelled range, so of the three tests of the source
    only the asterisk can succeed. *)
Definition asterisk_lines (soup : node) : list str :=
  map strip
      (filter (fun line => contains (lit "*") line)
              (split newline (get_text [newline] false soup))).

Definition fine_print_text (soup : node) : list str :=
  texts_of (footers soup) ++ texts_of (disclaimers soup)
  ++ texts_of (disclaimers_by_id soup) ++ texts_of (small_texts soup)
  ++ asterisk_lines soup.

Definition extract_fine_print_sections (soup : node) : str :=
  join [newline] (fine_print_text soup).

(** [is_terms_link]: some pattern is found in the link text or in the
    href. *)
Definition is_terms_link (link_text href : str) : bool :=
  existsb (fun pattern => isearch pattern link_text || isearch pattern href)
          TERMS_PATTERNS.

(* ================================================================== *)
(** ** Effects: exceptions and the trace of outside calls *)
(* ================================================================== *)

(** The exceptions the service distinguishes; each carries [str(e)]. *)
Inductive exn :=
| RequestException (msg : str)
| PlaywrightTimeout (msg : str)
| OtherException (msg : str).

Definition str_of_exn (e : exn) : str :=
  match e with
  | RequestException msg | PlaywrightTimeout msg | OtherException msg => msg
  end.

Inductive ScraperMode := STATIC | DYNAMIC | AUTO.

(** What a run does that an observer can see: entering a strategy, and the
    calls that leave the process. *)
Inductive Event :=
| Invoked (strategy : ScraperMode) (url : str)
| HttpGet (url : str)
| BrowserLaunch
| BrowserNewContext
| BrowserNewPage
| PageGoto (url : str) (timeout_ms : Z)
| PageContent
| BrowserClose.

Inductive outcome (A : Type) :=
| Returned (a : A)
| Raised (e : exn).
Arguments Returned {A} a.
Arguments Raised {A} e.

(** A computation: the events it performed, then how it ended. *)
Definition IO (A : Type) : Type := list Event * outcome A.

Definition ret {A} (a : A) : IO A := ([], Returned a).

Definition raise {A} (e : exn) : IO A := ([], Raised e).

Definition emit (ev : Event) : IO unit := ([ev], Returned tt).

Definition bind {A B} (m : IO A) (k : A -> IO B) : IO B :=
  match m with
  | (t, Returned a) => let (t', r) := k a in (t ++ t', r)
  | (t, Raised e) => (t, Raised e)
  end.

(** [try: m  except <handles> as e: handler e]. *)
Definition try_except {A} (m : IO A) (handles : exn -> bool)
           (handler : exn -> IO A) : IO A :=
  match m with
  | (t, Raised e) =>
      if handles e then let (t', r) := handler e in (t ++ t', r)
      else (t, Raised e)
  | done => done
  end.

(** [try: m  finally: cleanup]: the cleanup runs on every exit, and an
    exception of its own replaces the pending result. *)
Definition finally {A} (m : IO A) (cleanup : IO unit) : IO A :=
  let (t, r) := m in
  match cleanup with
  | (t', Returned _) => (t ++ t', r)
  | (t', Raised e') => (t ++ t', Raised e')
  end.

(** An outside call: its event, then the outcome the environment gives. *)
Definition perform {A} (ev : Event) (r : outcome A) : IO A := ([ev], r).

(** A call that stays inside the process. *)
Definition lift {A} (r : outcome A) : IO A := ([], r).

Definition completes (failure : option exn) : outcome unit :=
  match failure with
  | None => Returned tt
  | Some e => Raised e
  end.

Declare Scope io_scope.
Delimit Scope io_scope with io.
Notation "x <- m ;; k" := (bind m (fun x => k))
  (at level 61, m at next level, right associativity) : io_scope.
Notation "m ;; k" := (bind m (fun _ => k))
  (at level 61, right associativity) : io_scope.

Definition trace {A} (m : IO A) : list Event := fst m.
Definition result_of {A} (m : IO A) : outcome A := snd m.

(** [except Exception]. *)
Definition any_exception (e : exn) : bool := true.

Definition is_request_exception (e : exn) : bool :=
  match e with RequestException _ => true | _ => false end.

Definition is_playwright_timeout (e : exn) : bool :=
  match e with PlaywrightTimeout _ => true | _ => false end.

(* ================================================================== *)
(** ** Link discoverer: [find_terms_links] *)
(* ================================================================== *)

Section LinkDiscoverer.

(** [urllib.parse.urljoin]: the joined URL, or the [ValueError] it raises
    on a reference it cannot parse. *)
Variable urljoin : str -> str -> outcome str.

(** The loop over the anchors with its accumulators [links] and
    [found_urls]; an exception of [urljoin] ends it. *)
Fixpoint links_loop (anchors : list node) (base_url : str)
         (links found_urls : list str) : outcome (list str) :=
  match anchors with
  | [] => Returned links
  | link :: rest =>
      let href := attr_text (lit "href") link in
      let link_text := lower (get_text [] true link) in
      if is_terms_link link_text href then
        match urljoin base_url href with
        | Raised e => Raised e
        | Returned absolute_url =>
            if negb (mem absolute_url found_urls)
               && startswith (lit "http") absolute_url
            then links_loop rest base_url (links ++ [absolute_url])
                            (absolute_url :: found_urls)
            else links_loop rest base_url links found_urls
        end
      else links_loop rest base_url links found_urls
  end.

Definition find_terms_links (soup : node) (base_url : str)
  : outcome (list str) :=
  links_loop (find_all [lit "a"] (Present (lit "href")) soup) base_url [] [].

End LinkDiscoverer.

(* ================================================================== *)
(** ** Settings, results and the environment *)
(* ================================================================== *)

(** The scraping fields of [config.Settings]. *)
Record Settings := {
  enable_dynamic_scraping : bool;
  dynamic_scraping_timeout : Z;
  static_content_threshold : Z
}.

Definition default_settings : Settings :=
  {| enable_dynamic_scraping := true;
     dynamic_scraping_timeout := 10;
     static_content_threshold := 200 |}.

Record ScrapeResult := {
  url : str;
  final_url : str;
  content : str;
  char_count : Z;
  mode_used : ScraperMode;
  success : bool;
  error : option str
}.

(** How one headless session behaves: which awaited call raises, the URL
    the page ends on, and the markup it renders. *)
Record Session := {
  launch : option exn;
  new_context : option exn;
  new_page : option exn;
  goto : option exn;
  page_url : str;
  page_content : outcome str;
  close : option exn
}.

(** Everything outside the service. *)
Record World := {
  (** [requests.get] followed by [raise_for_status]: the body and the final
      URL, or the exception. *)
  requests_get : str -> outcome (str * str);
  (** [BeautifulSoup(html, 'lxml')]. *)
  BeautifulSoup : str -> node;
  (** [urllib.parse.urljoin]: the joined URL, or the exception. *)
  urljoin : str -> str -> outcome str;
  (** The session Playwright gives for a URL. *)
  playwright : str -> Session
}.

(* ================================================================== *)
(** ** The strategies and the orchestrator *)
(* ================================================================== *)

Section Service.

Variable W : World.
Variable settings : Settings.

Local Open Scope io_scope.

(** The property [ScrapeResult.is_likely_incomplete]. *)
Definition is_likely_incomplete (r : ScrapeResult) : bool :=
  char_count r <? static_content_threshold settings.

Definition fetch_page (url : str) : IO (str * str) :=
  try_except
    (let url := if startswith (lit "http://") url
                   || startswith (lit "https://") url
                then url else lit "https://" ++ url in
     perform (HttpGet url) (requests_get W url))
    is_request_exception
    (fun e => raise (OtherException
                       (lit "Failed to fetch webpage: " ++ str_of_exn e))).

Definition main_section (final_url main_text : str) : str :=
  lit "=== MAIN PAGE (" ++ final_url ++ lit ") ===" ++ [newline] ++ main_text.

Definition full_section (full_text : str) : str :=
  [newline] ++ lit "=== FULL PAGE CONTENT ===" ++ [newline] ++ full_text.

Definition terms_section (terms_url terms_text : str) : str :=
  [newline] ++ lit "=== TERMS PAGE (" ++ terms_url ++ lit ") ==="
  ++ [newline] ++ terms_text.

Definition dynamic_section (final_url text_content : str) : str :=
  lit "=== DYNAMIC PAGE (" ++ final_url ++ lit ") ===" ++ [newline]
  ++ text_content.

(** The loop over the related pages; a page that fails is skipped. *)
Fixpoint scrape_related (terms_links : list str) (all_text : list str)
  : IO (list str) :=
  match terms_links with
  | [] => ret all_text
  | terms_url :: rest =>
      all_text <-
        try_except
          (page <- fetch_page terms_url ;;
           let terms_soup := BeautifulSoup W (fst page) in
           let terms_text := get_text [space] true terms_soup in
           ret (all_text ++ [terms_section terms_url terms_text]))
          any_exception
          (fun _ => ret all_text) ;;
      scrape_related rest all_text
  end.

Definition _scrape_static (url : str) (max_related_pages : Z)
  : IO ScrapeResult :=
  emit (Invoked STATIC url) ;;
  try_except
    (page <- fetch_page url ;;
     let (html, final_url) := page in
     let soup := BeautifulSoup W html in
     let main_text := extract_fine_print_sections soup in
     let all_text :=
       if nonempty main_text then [main_section final_url main_text]
       else [] in
     let full_text := get_text [space] true soup in
     let all_text := all_text ++ [full_section full_text] in
     terms_links <- lift (find_terms_links (urljoin W) soup final_url) ;;
     all_text <- scrape_related (slice_to terms_links max_related_pages)
                                all_text ;;
     let combined_text := join [newline; newline] all_text in
     let char_count := len combined_text in
     ret {| url := url; final_url := final_url; content := combined_text;
            char_count := char_count; mode_used := STATIC; success := true;
            error := None |})
    any_exception
    (fun e =>
       ret {| url := url; final_url := url; content := [];
              char_count := 0; mode_used := STATIC; success := false;
              error := Some (str_of_exn e) |}).

Definition timeout_message : str :=
  lit "Timeout after " ++ str_of_int (dynamic_scraping_timeout settings)
  ++ lit " seconds".

Definition _scrape_dynamic (url : str) : IO ScrapeResult :=
  emit (Invoked DYNAMIC url) ;;
  let session := playwright W url in
  try_except
    (perform BrowserLaunch (completes (launch session)) ;;
     perform BrowserNewContext (completes (new_context session)) ;;
     perform BrowserNewPage (completes (new_page session)) ;;
     result <-
       finally
         (try_except
            (perform (PageGoto url (dynamic_scraping_timeout settings * 1000))
                     (completes (goto session)) ;;
             let final_url := page_url session in
             html_content <- perform PageContent (page_content session) ;;
             let soup := BeautifulSoup W html_content in
             let text_content := get_text [space] true soup in
             let char_count := len text_content in
             ret {| url := url; final_url := final_url;
                    content := dynamic_section final_url text_content;
                    char_count := char_count; mode_used := DYNAMIC;
                    success := true; error := None |})
            is_playwright_timeout
            (fun _ =>
               ret {| url := url; final_url := url; content := [];
                      char_count := 0; mode_used := DYNAMIC;
                      success := false; error := Some timeout_message |}))
         (perform BrowserClose (completes (close session))) ;;
     ret result)
    any_exception
    (fun e =>
       ret {| url := url; final_url := url; content := [];
              char_count := 0; mode_used := DYNAMIC; success := false;
              error := Some (str_of_exn e) |}).

Definition scrape_page_async (url : str) (mode : ScraperMode)
           (max_related_pages : Z) : IO ScrapeResult :=
  match mode with
  | STATIC => _scrape_static url max_related_pages
  | DYNAMIC =>
      if negb (enable_dynamic_scraping settings)
      then _scrape_static url max_related_pages
      else _scrape_dynamic url
  | AUTO =>
      result <- _scrape_static url max_related_pages ;;
      if success result && is_likely_incomplete result then
        if enable_dynamic_scraping settings then
          dynamic_result <- _scrape_dynamic url ;;
          if success dynamic_result
             && negb (is_likely_incomplete dynamic_result)
          then ret dynamic_result
          else ret result
        else ret result
      else ret result
  end.

End Service.

(* ================================================================== *)
(** ** Notions used to state the properties *)
(* ================================================================== *)

(** A computation returns [a]. *)
Definition returned {A} (m : IO A) (a : A) : Prop := result_of m = Returned a.

(** The events only the dynamic strategy performs. *)
Definition dynamic_event (ev : Event) : bool :=
  match ev with
  | Invoked DYNAMIC _ | BrowserLaunch | BrowserNewContext | BrowserNewPage
  | PageGoto _ _ | PageContent | BrowserClose => true
  | _ => false
  end.

(** A trace in which the dynamic strategy takes no part. *)
Definition quiet (t : list Event) : Prop :=
  Forall (fun ev => dynamic_event ev = false) t.

(** The shape every result has: a failure carries no content, and the
    error is there exactly on failure. *)
Definition well_formed (r : ScrapeResult) : Prop :=
  (success r = false -> content r = [] /\ char_count r = 0)
  /\ (error r <> None <-> success r = false).

(** The sentences the loop lets through, length apart from duplicates. *)
Definition long_enough (sentence : str) : bool := 10 <? len sentence.

(** Exact duplicates removed, the first occurrence kept, order kept. *)
Fixpoint first_occurrences (l : list str) : list str :=
  match l with
  | [] => []
  | s :: rest =>
      s :: filter (fun t => negb (str_eqb t s)) (first_occurrences rest)
  end.

(** [s] occurs in [t] as a contiguous piece. *)
Definition occurs_in (s t : str) : Prop :=
  exists before after, t = before ++ s ++ after.

(** A URL whose scheme is [http] or [https]. *)
Definition uses_http_scheme (u : str) : bool :=
  startswith (lit "http:") u || startswith (lit "https:") u.

(** The anchors that match a terms pattern, in document order. *)
Definition matching_anchors (anchors : list node) : list node :=
  filter (fun link => is_terms_link (lower (get_text [] true link))
                                    (attr_text (lit "href") link))
         anchors.

(** Joining each reference to the base, in order, up to the first that
    raises. *)
Fixpoint join_all (urljoin : str -> str -> outcome str) (base_url : str)
         (links : list node) : outcome (list str) :=
  match links with
  | [] => Returned []
  | link :: rest =>
      match urljoin base_url (attr_text (lit "href") link) with
      | Raised e => Raised e
      | Returned u =>
          match join_all urljoin base_url rest with
          | Raised e => Raised e
          | Returned us => Returned (u :: us)
          end
      end
  end.

(** The resolved URLs of the anchors that match a terms pattern, before
    duplicates and other schemes are removed, or the first exception of
    [urljoin]. *)
Definition candidate_urls (urljoin : str -> str -> outcome str)
           (anchors : list node) (base_url : str) : outcome (list str) :=
  join_all urljoin base_url (matching_anchors anchors).

(** A text in which every whitespace character is a single space; [after]
    says that a space stands just before the text. *)
Fixpoint collapsed (after : bool) (s : str) : bool :=
  match s with
  | [] => true
  | c :: r =>
      if is_space c
      then (if ascii_dec c space then true else false)
           && negb after && collapsed true r
      else collapsed false r
  end.

(** No whitespace in front. *)
Definition no_lead_space (s : str) : bool :=
  match s with
  | [] => true
  | c :: _ => negb (is_space c)
  end.

(** Inputs of the worked cases. *)
Definition ten_char_text : str := lit "abcdefghij. A longer second sentence.".

Definition two_sentence_text : str := lit "aaaaaaaaaaaa. bbbbbbbbbbbb".

Definition repeated_text : str :=
  lit "Hello world,   friend. Hello world, friend.  Goodbye now, friend.".

(** What holds of every sentence the loop keeps. *)
Definition kept_sentence (s : str) : Prop :=
  collapsed false s = true /\ ~ In dot s /\ strip s = s
  /\ long_enough s = true.

(** *** Documents and environments of the worked cases *)

Definition document (contents : list node) : node :=
  Tag (lit "[document]") [] contents.

(** [<footer>No refunds after 30 days</footer>]. *)
Definition bare_footer : node :=
  Tag (lit "footer") [] [NavigableString (lit "No refunds after 30 days")].

(** [<span class="site-footer">Fees may apply</span>]. *)
Definition span_footer : node :=
  Tag (lit "span") [(lit "class", Multi [lit "site-footer"])]
      [NavigableString (lit "Fees may apply")].

(** [<div class="page Site-Footer"> Renews <b>monthly</b> </div>]. *)
Definition div_footer : node :=
  Tag (lit "div") [(lit "class", Multi [lit "page"; lit "Site-Footer"])]
      [NavigableString (lit " Renews ");
       Tag (lit "b") [] [NavigableString (lit "monthly")]].

(** [<a href="httpx://example.com/terms">Terms</a>]. *)
Definition httpx_anchor : node :=
  Tag (lit "a") [(lit "href", Single (lit "httpx://example.com/terms"))]
      [NavigableString (lit "Terms")].

Definition example_url : str := lit "https://example.com/".

(** Two anchors to the same page, a mail link that matches a pattern, a
    link that matches none, and a footnote. *)
Definition linked_page : node :=
  document
    [Tag (lit "a") [(lit "href", Single (lit "/terms"))]
         [NavigableString (lit "Terms of Service")];
     Tag (lit "a") [(lit "href", Single (lit "mailto:legal@example.com"))]
         [NavigableString (lit "Legal")];
     Tag (lit "a") [(lit "href", Single (lit "/about"))]
         [NavigableString (lit "About")];
     Tag (lit "a") [(lit "href", Single (lit "/terms"))]
         [NavigableString (lit " T&C ")];
     Tag (lit "small") [] [NavigableString (lit " *Fees apply ")]].

(** What [urljoin] does with the references of [linked_page]: a path is
    put after the host of the base, a reference with a scheme is kept. *)
Definition join_on_example (base_url href : str) : outcome str :=
  if startswith (lit "/") href
  then Returned (lit "https://example.com" ++ href)
  else Returned href.

(** [<a href="//[terms">Terms</a>]: a reference whose host part opens a
    bracket that is never closed. *)
Definition broken_anchor : node :=
  Tag (lit "a") [(lit "href", Single (lit "//[terms"))]
      [NavigableString (lit "Terms")].

(** An anchor that resolves, followed by [broken_anchor]. *)
Definition half_broken_page : node :=
  document
    [Tag (lit "a") [(lit "href", Single (lit "/terms"))]
         [NavigableString (lit "Terms of Service")];
     broken_anchor].

(** What [urljoin] does with the references of [linked_page] and with the
    reference of [broken_anchor], on which it raises a [ValueError]. *)
Definition strict_join (base_url href : str) : outcome str :=
  if startswith (lit "//[") href
  then Raised (OtherException (lit "Invalid IPv6 URL"))
  else join_on_example base_url href.

(** A page that renders the eleven characters [Hello world]. *)
Definition hello_page : node := document [NavigableString (lit "Hello world")].

Definition quiet_session : Session :=
  {| launch := None; new_context := None; new_page := None; goto := None;
     page_url := example_url;
     page_content := Returned (lit "<p>Hello world</p>");
     close := None |}.

Definition stalled_session : Session :=
  {| launch := None; new_context := None; new_page := None;
     goto := Some (PlaywrightTimeout (lit "Timeout 10000ms exceeded."));
     page_url := example_url;
     page_content := Returned [];
     close := None |}.


(** The network is down; the browser renders [hello_page]. *)
Definition offline_world : World :=
  {| requests_get := fun _ =>
       Raised (RequestException (lit "Connection refused"));
     BeautifulSoup := fun _ => hello_page;
     urljoin := fun _ href => Returned href;
     playwright := fun _ => quiet_session |}.

(** Navigation never becomes idle. *)
Definition stalled_world : World :=
  {| requests_get := fun u => Returned (lit "<p>Hello world</p>", u);
     BeautifulSoup := fun _ => hello_page;
     urljoin := fun _ href => Returned href;
     playwright := fun _ => stalled_session |}.

(** The main page holds [broken_anchor], whose reference [urljoin]
    rejects. *)
Definition broken_world : World :=
  {| requests_get := fun u => Returned (lit "<a href=//[terms>Terms</a>", u);
     BeautifulSoup := fun _ => document [broken_anchor];
     urljoin := strict_join;
     playwright := fun _ => quiet_session |}.

(* ================================================================== *)
(** ** The synchronous wrappers: [scrape_page] and [scrape_url] *)
(* ================================================================== *)

(** What the wrappers can raise: a [RuntimeError] of [asyncio] or of the
    wrapper itself, or an exception of the service. *)
Inductive wrapper_exn :=
| RuntimeError (msg : str)
| Service (e : exn).

Definition wrapped (A : Type) : Type := list Event * (A + wrapper_exn).

(** [asyncio.get_running_loop()]: raises when no loop runs in the thread. *)
Definition get_running_loop (loop_running : bool) : unit + wrapper_exn :=
  if loop_running then inl tt
  else inr (RuntimeError (lit "no running event loop")).

(** [asyncio.run(coro)]: refuses to start under a running loop, and
    otherwise runs the coroutine to its end. *)
Definition asyncio_run {A} (loop_running : bool) (coro : IO A) : wrapped A :=
  if loop_running
  then ([], inr (RuntimeError
                   (lit "asyncio.run() cannot be called from a running event loop")))
  else let (t, r) := coro in
       (t, match r with
           | Returned a => inl a
           | Raised e => inr (Service e)
           end).

Definition is_runtime_error (e : wrapper_exn) : bool :=
  match e with RuntimeError _ => true | Service _ => false end.

Section Wrappers.

Variable W : World.
Variable settings : Settings.

(** Whether an event loop is running in the calling thread. *)
Variable loop_running : bool.

Definition scrape_page (url : str) (mode : ScraperMode)
           (max_related_pages : Z) : wrapped ScrapeResult :=
  let raised : wrapper_exn :=
    match get_running_loop loop_running with
    | inl _ =>
        RuntimeError
          (lit "scrape_page cannot be called from an async context. Use scrape_page_async instead.")
    | inr e => e
    end in
  if is_runtime_error raised
  then asyncio_run loop_running
         (scrape_page_async W settings url mode max_related_pages)
  else ([], inr raised).

(** [f"{result.error}"] for an optional string. *)
Definition format_optional (o : option str) : str :=
  match o with
  | Some s => s
  | None => lit "None"
  end.

Definition scrape_url (url : str) (max_related_pages : Z) : wrapped str :=
  match scrape_page url AUTO max_related_pages with
  | (t, inl result) =>
      if negb (success result)
      then (t, inr (Service (OtherException
                               (lit "Failed to scrape website: "
                                ++ format_optional (error result)))))
      else (t, inl (content result))
  | (t, inr e) => (t, inr e)
  end.

End Wrappers.

(* ================================================================== *)
(** ** Scan limits: [database.py] *)
(* ================================================================== *)

(** A row of the table [users]; the key [user_id] is kept by the table.
    A date is its ordinal. *)
Record User := {
  is_paid : bool;
  last_scan_date : option Z;
  daily_scan_count : Z
}.

(** The table, by primary key.  Every change the code makes is committed
    before the session is given back, so a change is a change of the
    table. *)
Definition Table := str -> option User.

Definition put (db : Table) (user_id : str) (user : User) : Table :=
  fun k => if str_eqb k user_id then Some user else db k.

Definition empty_table : Table := fun _ => None.

Definition get_or_create_user (db : Table) (user_id : str) : User * Table :=
  match db user_id with
  | Some user => (user, db)
  | None =>
      let user := {| is_paid := false; last_scan_date := None;
                     daily_scan_count := 0 |} in
      (user, put db user_id user)
  end.

(** [user.last_scan_date != today]. *)
Definition another_day (last : option Z) (today : Z) : bool :=
  match last with
  | Some d => negb (d =? today)
  | None => true
  end.

Definition limit_reached_message : str :=
  lit "You have used your 1 free scan for today. Upgrade to get unlimited scans.".

Definition check_scan_limit (disable_scan_limits : bool) (db : Table)
           (user_id : str) (today : Z) : (bool * str) * Table :=
  if disable_scan_limits
  then ((true, lit "Scan limits disabled for testing"), db)
  else
    let (user, db) := get_or_create_user db user_id in
    if startswith (lit "admin_") user_id || startswith (lit "dev_") user_id
    then ((true, lit "Developer unlimited scans"), db)
    else if is_paid user
    then ((true, lit "Unlimited scans available"), db)
    else
      let (user, db) :=
        if another_day (last_scan_date user) today
        then let user := {| is_paid := is_paid user;
                            last_scan_date := Some today;
                            daily_scan_count := 0 |} in
             (user, put db user_id user)
        else (user, db) in
      if 1 <=? daily_scan_count user
      then ((false, limit_reached_message), db)
      else ((true, lit "Free scan available ("
                   ++ str_of_int (1 - daily_scan_count user)
                   ++ lit " remaining today)"), db).

Definition increment_scan_count (db : Table) (user_id : str) (today : Z)
  : Table :=
  let (user, db) := get_or_create_user db user_id in
  let user :=
    if another_day (last_scan_date user) today
    then {| is_paid := is_paid user; last_scan_date := Some today;
            daily_scan_count := 1 |}
    else {| is_paid := is_paid user; last_scan_date := last_scan_date user;
            daily_scan_count := daily_scan_count user + 1 |} in
  put db user_id user.

(** The endpoint [reset_user_scans] of [main.py]: whether the user was
    found, and the table afterwards. *)
Definition reset_user_scans (db : Table) (user_id : str) : bool * Table :=
  match db user_id with
  | Some user =>
      (true, put db user_id {| is_paid := is_paid user;
                               last_scan_date := None;
                               daily_scan_count := 0 |})
  | None => (false, db)
  end.

(* ================================================================== *)
(** ** The endpoint [analyze_url] of [main.py] *)
(* ================================================================== *)

(** What the endpoint answers: the response, or an [HTTPException] with
    its status code and the two fields of its detail. *)
Inductive answer (A : Type) :=
| Analyzed (analysis : A) (message : str)
| HTTPException (status_code : Z) (error message : str).
Arguments Analyzed {A} analysis message.
Arguments HTTPException {A} status_code error message.

Definition insufficient_content_message : str :=
  lit "Could not extract enough content from this page, even with JavaScript rendering. "
  ++ lit "The page may be protected against scraping or may not contain promotional terms. "
  ++ lit "Try taking a screenshot instead.".

Section Endpoint.

Variable W : World.
Variable settings : Settings.

(** [settings.disable_scan_limits]. *)
Variable disable_scan_limits : bool.

(** The analysis client and the response model, from outside: what
    [analyze_fine_print] returns or raises for a text, and what building an
    [AnalysisResult] from that dictionary returns or raises. *)
Variable Dict AnalysisResult : Type.
Variable analyze_fine_print : str -> outcome Dict.
Variable build_AnalysisResult : Dict -> outcome AnalysisResult.

Definition analysis_failed (e : exn) : answer AnalysisResult :=
  HTTPException 500 (lit "ANALYSIS_FAILED")
                (lit "Failed to analyze offer: " ++ str_of_exn e).

(** [today_check] and [today_record] are the two readings of
    [date.today()], in [check_scan_limit] and in [increment_scan_count].
    The calls of the database session are taken to complete, so the check
    and the recording are the functions on tables above; an exception of
    theirs would reach the handler that answers 500 [ANALYSIS_FAILED]. *)
Definition analyze_url (url user_id : str) (db : Table)
           (today_check today_record : Z)
  : list Event * answer AnalysisResult * Table :=
  let '((can_scan, limit_message), db) :=
    check_scan_limit disable_scan_limits db user_id today_check in
  if negb can_scan
  then ([], HTTPException 429 (lit "FREE_LIMIT_REACHED") limit_message, db)
  else
    let (t, scraped) := scrape_page_async W settings url AUTO 5 in
    match scraped with
    | Raised e => (t, analysis_failed e, db)
    | Returned scrape_result =>
        if negb (success scrape_result)
        then (t, HTTPException 422 (lit "SCRAPING_FAILED")
                   (lit "Failed to scrape website: "
                    ++ format_optional (error scrape_result)), db)
        else
          let cleaned_text :=
            clean_and_deduplicate_text (content scrape_result)
                                       default_max_length in
          if len cleaned_text <? static_content_threshold settings
          then (t, HTTPException 422 (lit "INSUFFICIENT_CONTENT")
                     insufficient_content_message, db)
          else
            match analyze_fine_print cleaned_text with
            | Raised e => (t, analysis_failed e, db)
            | Returned analysis_dict =>
                match build_AnalysisResult analysis_dict with
                | Raised e => (t, analysis_failed e, db)
                | Returned analysis_result =>
                    (t, Analyzed analysis_result
                                 (lit "Analysis completed successfully"),
                     increment_scan_count db user_id today_record)
                end
            end
    end.

End Endpoint.

(* ================================================================== *)
(** ** [Settings.cors_origins_list] of [config.py] *)
(* ================================================================== *)

Definition comma : ascii := ","%char.

Definition cors_origins_list (cors_origins : str) : list str :=
  map strip (split comma cors_origins).

Definition default_cors_origins : str :=
  lit "http://localhost:*,http://127.0.0.1:*".

(* ================================================================== *)
(** ** Further notions *)
(* ================================================================== *)

(** The URL [fetch_page] asks for. *)
Definition requested_url (url : str) : str :=
  if startswith (lit "http://") url || startswith (lit "https://") url
  then url else lit "https://" ++ url.

(** The sections of the related pages whose fetch succeeds, in order. *)
Definition related_sections (W : World) (links : list str) : list str :=
  flat_map
    (fun terms_url =>
       match requests_get W (requested_url terms_url) with
       | Returned (terms_html, _) =>
           [terms_section terms_url
              (get_text [space] true (BeautifulSoup W terms_html))]
       | Raised _ => []
       end)
    links.

(** The texts the static strategy collects for a main page [soup] that
    ended on [final_url], given the related links it follows. *)
Definition static_texts (W : World) (soup : node) (final_url : str)
           (links : list str) : list str :=
  (if nonempty (extract_fine_print_sections soup)
   then [main_section final_url (extract_fine_print_sections soup)]
   else [])
  ++ [full_section (get_text [space] true soup)]
  ++ related_sections W links.

(** The record a strategy returns when it fails. *)
Definition failure (mode : ScraperMode) (u msg : str) : ScrapeResult :=
  {| url := u; final_url := u; content := []; char_count := 0;
     mode_used := mode; success := false; error := Some msg |}.

(** The browser was launched and a page was opened in it. *)
Definition page_opened (s : Session) : bool :=
  match launch s, new_context s, new_page s with
  | None, None, None => true
  | _, _, _ => false
  end.




(** What a failure inside the page is reported as. *)
Definition page_error (settings : Settings) (e : exn) : str :=
  if is_playwright_timeout e then timeout_message settings else str_of_exn e.

(** The identifiers the code lets through without counting. *)
Definition privileged (user_id : str) : bool :=
  startswith (lit "admin_") user_id || startswith (lit "dev_") user_id.

(** A user who is subject to the daily limit: no privileged identifier and
    no paid row. *)
Definition free_user (db : Table) (user_id : str) : Prop :=
  privileged user_id = false
  /\ forall user, db user_id = Some user -> is_paid user = false.

Definition counts_nonneg (db : Table) : Prop :=
  forall k user, db k = Some user -> 0 <= daily_scan_count user.

Definition is_http_get (ev : Event) : bool :=
  match ev with HttpGet _ => true | _ => false end.

Definition is_browser_close (ev : Event) : bool :=
  match ev with BrowserClose => true | _ => false end.

(** How often an event of a kind occurs in a trace. *)
Definition count (kind : Event -> bool) (t : list Event) : Z :=
  Z.of_nat (length (filter kind t)).

(** *** Further worked cases *)

(** A page whose text is long enough to be analyzed. *)
Definition terms_page : node :=
  document
    [Tag (lit "p") []
       [NavigableString
          (lit "The promotional price applies to the first three months only. After the promotional period the subscription renews at the regular monthly price. You may cancel at any time before the renewal date by calling customer service. Refunds are not available for partial billing periods.")]].

(** The network answers every request with [terms_page]. *)
Definition terms_world : World :=
  {| requests_get := fun u => Returned (lit "<p>...</p>", u);
     BeautifulSoup := fun _ => terms_page;
     urljoin := fun _ href => Returned href;
     playwright := fun _ => quiet_session |}.


Definition no_browser_session : Session :=
  {| launch := Some (PlaywrightTimeout (lit "Timeout 180000ms exceeded."));
     new_context := None; new_page := None; goto := None;
     page_url := example_url; page_content := Returned []; close := None |}.


Definition static_only_settings : Settings :=
  {| enable_dynamic_scraping := false;
     dynamic_scraping_timeout := 10;
     static_content_threshold := 200 |}.

Definition example_user : str := lit "user123".

(** An analysis client that answers with the text it was given. *)
Definition echo_client (text : str) : outcome str := Returned text.

(** An analysis client whose request is refused. *)
Definition failing_client (text : str) : outcome str :=
  Raised (OtherException (lit "Rate limit exceeded")).

(* ================================================================== *)
(** ** Facts about strings *)
(* ================================================================== *)

Section StringFacts.

Lemma str_eqb_eq (a b : str) : str_eqb a b = true <-> a = b.
Proof.
  unfold str_eqb. destruct (list_eq_dec ascii_dec a b); split; congruence.
Qed.

Lemma str_eqb_refl (a : str) : str_eqb a a = true.
Proof. now apply str_eqb_eq. Qed.

Lemma str_eqb_neq (a b : str) : str_eqb a b = false <-> a <> b.
Proof.
  unfold str_eqb. destruct (list_eq_dec ascii_dec a b); split; congruence.
Qed.

Lemma mem_In (x : str) (xs : list str) : mem x xs = true <-> In x xs.
Proof.
  unfold mem. rewrite existsb_exists. split.
  - intros (y & Hy & E). apply str_eqb_eq in E. now subst.
  - intros H. exists x. split; [assumption | apply str_eqb_refl].
Qed.

Lemma mem_not_In (x : str) (xs : list str) : mem x xs = false <-> ~ In x xs.
Proof.
  rewrite <- mem_In. destruct (mem x xs); split; congruence.
Qed.

Lemma len_app (a b : str) : len (a ++ b) = len a + len b.
Proof. unfold len. rewrite length_app. lia. Qed.

Lemma len_nonneg (a : str) : 0 <= len a.
Proof. unfold len. lia. Qed.

Lemma space_is_space : is_space space = true.
Proof. reflexivity. Qed.

Lemma dot_not_space : is_space dot = false.
Proof. reflexivity. Qed.

(** *** Stripping *)

Lemma lstrip_suffix (s : str) : exists pre, s = pre ++ lstrip s.
Proof.
  induction s as [|c r [pre IH]]; simpl.
  - now exists [].
  - destruct (is_space c).
    + exists (c :: pre). simpl. now f_equal.
    + now exists [].
Qed.

Lemma rstrip_prefix (s : str) : exists post, s = rstrip s ++ post.
Proof.
  unfold rstrip. destruct (lstrip_suffix (rev s)) as [pre E].
  exists (rev pre). rewrite <- rev_app_distr, <- E. now rewrite rev_involutive.
Qed.

Lemma lstrip_no_lead (s : str) : no_lead_space (lstrip s) = true.
Proof.
  induction s as [|c r IH]; simpl; [reflexivity|].
  destruct (is_space c) eqn:E; [assumption|]. simpl. now rewrite E.
Qed.

Lemma no_lead_lstrip (s : str) : no_lead_space s = true -> lstrip s = s.
Proof.
  destruct s as [|c r]; simpl; [reflexivity|].
  destruct (is_space c); [discriminate | reflexivity].
Qed.

Lemma no_lead_prefix (a b : str) :
  no_lead_space (a ++ b) = true -> no_lead_space a = true.
Proof. destruct a; simpl; auto. Qed.

Lemma strip_no_lead (s : str) : no_lead_space (strip s) = true.
Proof.
  unfold strip. destruct (rstrip_prefix (lstrip s)) as [post E].
  apply no_lead_prefix with (b := post). rewrite <- E. apply lstrip_no_lead.
Qed.

Lemma lstrip_idem (s : str) : lstrip (lstrip s) = lstrip s.
Proof. apply no_lead_lstrip, lstrip_no_lead. Qed.

Lemma strip_idem (s : str) : strip (strip s) = strip s.
Proof.
  unfold strip at 1. rewrite (no_lead_lstrip _ (strip_no_lead s)).
  unfold strip, rstrip. rewrite rev_involutive. now rewrite lstrip_idem.
Qed.

Lemma strip_space_cons (s : str) : strip (space :: s) = strip s.
Proof. reflexivity. Qed.

Lemma strip_incl (s : str) : incl (strip s) s.
Proof.
  unfold strip. destruct (lstrip_suffix s) as [pre E1].
  destruct (rstrip_prefix (lstrip s)) as [post E2].
  intros c Hc. rewrite E1. apply in_or_app. right.
  rewrite E2. apply in_or_app. now left.
Qed.

(** *** Splitting and joining *)

Lemma split_no_sep (c : ascii) (s : str) : ~ In c s -> split c s = [s].
Proof.
  induction s as [|a r IH]; simpl; intros H; [reflexivity|].
  destruct (ascii_dec a c) as [->|_]; [exfalso; now apply H; left|].
  rewrite IH; [reflexivity | intros Hin; apply H; now right].
Qed.

Lemma split_app_sep (c : ascii) (p t : str) :
  ~ In c p -> split c (p ++ c :: t) = p :: split c t.
Proof.
  induction p as [|a r IH]; simpl; intros H.
  - destruct (ascii_dec c c); [reflexivity | congruence].
  - destruct (ascii_dec a c) as [->|_]; [exfalso; now apply H; left|].
    rewrite IH; [reflexivity | intros Hin; apply H; now right].
Qed.

Lemma split_pieces (c : ascii) (s : str) :
  Forall (fun p => ~ In c p) (split c s).
Proof.
  induction s as [|a r IH]; simpl.
  - constructor; [intros [] | constructor].
  - destruct (ascii_dec a c) as [->|Hne].
    + constructor; [intros [] | assumption].
    + destruct (split c r) as [|h t]; constructor.
      * intros [E|[]]. congruence.
      * constructor.
      * inversion IH; subst. intros [E|Hin]; [congruence | auto].
      * now inversion IH.
Qed.

Lemma join_cons2 (sep p q : str) (rest : list str) :
  join sep (p :: q :: rest) = p ++ sep ++ join sep (q :: rest).
Proof. reflexivity. Qed.

Lemma join_occurs (sep x : str) (l : list str) :
  In x l -> occurs_in x (join sep l).
Proof.
  induction l as [|p rest IH]; intros H; [destruct H|].
  destruct rest as [|q rest].
  - destruct H as [->|[]]. exists [], []. simpl. now rewrite app_nil_r.
  - rewrite join_cons2. destruct H as [->|H].
    + exists [], (sep ++ join sep (q :: rest)). reflexivity.
    + destruct (IH H) as (b & a & E). rewrite E.
      exists (p ++ sep ++ b), a. now rewrite <- !app_assoc.
Qed.

End StringFacts.

(* ================================================================== *)
(** ** The normalizer *)
(* ================================================================== *)

Section Normalizer.

(** *** Whitespace *)

Lemma sub_ws_collapsed (s : str) : forall b, collapsed b (sub_ws b s) = true.
Proof.
  induction s as [|c r IH]; intros b; simpl; [reflexivity|].
  destruct (is_space c) eqn:E.
  - destruct b; [apply IH|]. change (collapsed true (sub_ws true r) = true).
    apply IH.
  - simpl. rewrite E. apply IH.
Qed.

Lemma collapsed_fixed (s : str) :
  forall b, collapsed b s = true -> sub_ws b s = s.
Proof.
  induction s as [|c r IH]; intros b; simpl; [reflexivity|].
  destruct (is_space c) eqn:E.
  - destruct (ascii_dec c space) as [->|]; [|discriminate].
    destruct b; simpl; [discriminate|]. intros H. f_equal. now apply IH.
  - intros H. f_equal. now apply IH.
Qed.

Lemma collapsed_weaken (s : str) (b : bool) :
  collapsed b s = true -> collapsed false s = true.
Proof.
  destruct s as [|c r]; simpl; [reflexivity|].
  destruct (is_space c); [|trivial].
  destruct (ascii_dec c space); [|discriminate].
  destruct b; simpl; [discriminate | trivial].
Qed.

Lemma collapsed_app (s t : str) :
  forall b, collapsed b (s ++ t) = true ->
            collapsed b s = true /\ collapsed false t = true.
Proof.
  induction s as [|c r IH]; intros b; simpl.
  - intros H. split; [reflexivity | now apply collapsed_weaken with b].
  - destruct (is_space c).
    + destruct (ascii_dec c space); [|discriminate].
      destruct b; simpl; [discriminate|]. apply IH.
    + apply IH.
Qed.

Lemma collapsed_app_char (p t : str) (c : ascii) :
  is_space c = false ->
  forall b, collapsed b (p ++ c :: t) = collapsed b p && collapsed false t.
Proof.
  intros Hc. induction p as [|a r IH]; intros b; simpl.
  - now rewrite Hc.
  - destruct (is_space a); [|apply IH].
    rewrite IH. now rewrite !andb_assoc.
Qed.

Lemma collapsed_no_lead (s : str) :
  no_lead_space s = true -> collapsed false s = true -> collapsed true s = true.
Proof.
  destruct s as [|c r]; simpl; [reflexivity|].
  destruct (is_space c); [discriminate | trivial].
Qed.

Lemma collapsed_strip (s : str) :
  collapsed false s = true -> collapsed false (strip s) = true.
Proof.
  intros H. unfold strip.
  destruct (lstrip_suffix s) as [pre E1]. rewrite E1 in H.
  apply collapsed_app in H. destruct H as [_ H].
  destruct (rstrip_prefix (lstrip s)) as [post E2]. rewrite E2 in H.
  now apply collapsed_app in H.
Qed.

Lemma collapsed_pieces (s : str) :
  forall b, collapsed b s = true ->
  exists h t, split dot s = h :: t /\ collapsed b h = true
              /\ Forall (fun p => collapsed false p = true) t.
Proof.
  induction s as [|c r IH]; intros b H; simpl.
  - exists [], []. repeat split. constructor.
  - destruct (ascii_dec c dot) as [->|Hne].
    + simpl in H. destruct (IH false H) as (h & t & E & Hh & Ht).
      exists [], (h :: t). rewrite E. repeat split. now constructor.
    + simpl in H. destruct (is_space c) eqn:Ec.
      * destruct (ascii_dec c space); [|discriminate].
        destruct b; simpl in H; [discriminate|].
        destruct (IH true H) as (h & t & E & Hh & Ht).
        exists (c :: h), t. rewrite E. repeat split; [|assumption].
        simpl. rewrite Ec. destruct (ascii_dec c space); [|congruence].
        exact Hh.
      * destruct (IH false H) as (h & t & E & Hh & Ht).
        exists (c :: h), t. rewrite E. repeat split; [|assumption].
        simpl. now rewrite Ec.
Qed.

Lemma split_collapsed (text : str) :
  Forall (fun p => collapsed false p = true) (split dot (sub_ws false text)).
Proof.
  destruct (collapsed_pieces _ false (sub_ws_collapsed text false))
    as (h & t & E & Hh & Ht).
  rewrite E. now constructor.
Qed.

(** *** The loop *)

Lemma filter_filter {A} (f g : A -> bool) (l : list A) :
  filter f (filter g l) = filter (fun x => g x && f x) l.
Proof.
  induction l as [|a r IH]; simpl; [reflexivity|].
  destruct (g a); simpl; [|assumption].
  destruct (f a); simpl; now rewrite IH.
Qed.

Lemma first_occurrences_In (l : list str) (x : str) :
  In x (first_occurrences l) <-> In x l.
Proof.
  induction l as [|s r IH]; simpl; [tauto|].
  rewrite filter_In, IH. split.
  - intros [H|[H _]]; auto.
  - intros [H|H]; [now left|].
    destruct (list_eq_dec ascii_dec s x) as [E|N]; [now left|].
    right. split; [assumption|].
    apply negb_true_iff, str_eqb_neq. congruence.
Qed.

Lemma first_occurrences_NoDup (l : list str) : NoDup (first_occurrences l).
Proof.
  induction l as [|s r IH]; simpl; constructor.
  - rewrite filter_In. intros [_ H].
    now rewrite str_eqb_refl in H.
  - now apply NoDup_filter.
Qed.

Lemma first_occurrences_fixed (l : list str) :
  NoDup l -> first_occurrences l = l.
Proof.
  induction 1 as [|s r Hs Hr IH]; simpl; [reflexivity|].
  rewrite IH. f_equal. apply forallb_filter_id, forallb_forall.
  intros t Ht. apply negb_true_iff, str_eqb_neq. congruence.
Qed.

Lemma dedup_loop_spec (sentences : list str) :
  forall seen unique,
    dedup_loop sentences seen unique
    = unique ++ filter (fun t => negb (mem t seen))
                       (first_occurrences
                          (filter long_enough (map strip sentences))).
Proof.
  induction sentences as [|s0 rest IH]; intros seen unique; simpl.
  - now rewrite app_nil_r.
  - unfold long_enough at 1.
    destruct (10 <? len (strip s0)) eqn:Hlong.
    + assert (Hne : negb (str_eqb (strip s0) []) = true).
      { apply negb_true_iff, str_eqb_neq. intros E. rewrite E in Hlong.
        discriminate. }
      rewrite Hne. simpl. rewrite filter_filter.
      destruct (mem (strip s0) seen) eqn:Hm; simpl.
      * rewrite IH. f_equal. apply filter_ext_in. intros t _.
        destruct (str_eqb t (strip s0)) eqn:E; simpl; [|reflexivity].
        apply str_eqb_eq in E. subst. now rewrite Hm.
      * rewrite IH, <- app_assoc. simpl. do 2 f_equal.
        apply filter_ext. intros t. apply negb_orb.
    + rewrite andb_false_r. apply IH.
Qed.

Lemma unique_sentences_spec (text : str) :
  unique_sentences text
  = first_occurrences (filter long_enough (trimmed_sentences text)).
Proof.
  unfold unique_sentences, trimmed_sentences.
  rewrite dedup_loop_spec. simpl.
  apply forallb_filter_id, forallb_forall. reflexivity.
Qed.

(** *** The sentences that survive, and a second pass over them *)

Lemma unique_sentences_kept (text : str) :
  Forall kept_sentence (unique_sentences text).
Proof.
  rewrite unique_sentences_spec. apply Forall_forall. intros x Hx.
  apply first_occurrences_In, filter_In in Hx. destruct Hx as [Hx Hlong].
  unfold trimmed_sentences in Hx. apply in_map_iff in Hx.
  destruct Hx as (p & <- & Hp). repeat split.
  - apply collapsed_strip.
    exact (proj1 (Forall_forall _ _) (split_collapsed text) p Hp).
  - intros Hd. apply strip_incl in Hd.
    exact (proj1 (Forall_forall _ _) (split_pieces dot _) p Hp Hd).
  - apply strip_idem.
  - exact Hlong.
Qed.

Lemma kept_no_lead (s : str) : kept_sentence s -> no_lead_space s = true.
Proof. intros (_ & _ & E & _). rewrite <- E. apply strip_no_lead. Qed.

Lemma kept_nonempty (s : str) : kept_sentence s -> s <> [].
Proof. intros (_ & _ & _ & H) ->. discriminate. Qed.

Lemma join_kept (U : list str) :
  Forall kept_sentence U ->
  collapsed false (join sentence_sep U) = true
  /\ no_lead_space (join sentence_sep U) = true.
Proof.
  induction 1 as [|p rest Hp Hrest IH]; [split; reflexivity|].
  destruct rest as [|q rest].
  - simpl. split; [apply Hp | now apply kept_no_lead].
  - rewrite join_cons2. destruct IH as [IHc IHn]. split.
    + change (p ++ sentence_sep ++ join sentence_sep (q :: rest))
        with (p ++ dot :: space :: join sentence_sep (q :: rest)).
      rewrite (collapsed_app_char _ _ dot dot_not_space).
      apply andb_true_iff. split; [apply Hp|].
      change (collapsed true (join sentence_sep (q :: rest)) = true).
      now apply collapsed_no_lead.
    + pose proof (kept_no_lead _ Hp) as Hn. pose proof (kept_nonempty _ Hp).
      destruct p; [congruence | exact Hn].
Qed.

Lemma split_join_kept (U : list str) :
  Forall kept_sentence U ->
  map strip (split dot (join sentence_sep U))
  = match U with [] => [[]] | _ => U end.
Proof.
  induction 1 as [|p rest Hp Hrest IH]; [reflexivity|].
  assert (Ep : strip p = p) by apply Hp.
  assert (Hd : ~ In dot p) by apply Hp.
  destruct rest as [|q rest].
  - simpl. rewrite split_no_sep by assumption. simpl. now rewrite Ep.
  - rewrite join_cons2.
    change (p ++ sentence_sep ++ join sentence_sep (q :: rest))
      with (p ++ dot :: space :: join sentence_sep (q :: rest)).
    rewrite split_app_sep by assumption.
    change (split dot (space :: join sentence_sep (q :: rest)))
      with (match split dot (join sentence_sep (q :: rest)) with
            | [] => [[space]]
            | h :: t => (space :: h) :: t
            end).
    destruct (split dot (join sentence_sep (q :: rest))) as [|h t];
      [discriminate IH|].
    simpl in IH |- *. rewrite Ep. f_equal.
    rewrite strip_space_cons. exact IH.
Qed.

Lemma second_pass (U : list str) :
  Forall kept_sentence U -> NoDup U ->
  unique_sentences (join sentence_sep U) = U.
Proof.
  intros HU Hnd. rewrite unique_sentences_spec. unfold trimmed_sentences.
  rewrite (collapsed_fixed _ false (proj1 (join_kept U HU))).
  rewrite split_join_kept by assumption.
  destruct U as [|p rest]; [reflexivity|].
  rewrite forallb_filter_id.
  - now apply first_occurrences_fixed.
  - apply forallb_forall. intros x Hx.
    exact (proj2 (proj2 (proj2 (proj1 (Forall_forall _ _) HU x Hx)))).
Qed.

Lemma deduplicated_fixed (text : str) :
  deduplicated (deduplicated text) = deduplicated text.
Proof.
  unfold deduplicated at 1 3. f_equal. unfold deduplicated.
  apply second_pass; [apply unique_sentences_kept|].
  rewrite unique_sentences_spec. apply first_occurrences_NoDup.
Qed.

End Normalizer.

(* ================================================================== *)
(** ** Properties of the normalizer *)
(* ================================================================== *)

(** C8, as stated, fails: a trimmed sentence of exactly 10 characters that
    is no duplicate is dropped, because the loop keeps a sentence only when
    its length is greater than 10. *)
Lemma ten_char_sentence_dropped :
  In (lit "abcdefghij") (trimmed_sentences ten_char_text)
  /\ len (lit "abcdefghij") = 10
  /\ ~ In (lit "abcdefghij") (unique_sentences ten_char_text)
  /\ clean_and_deduplicate_text ten_char_text default_max_length
     = lit "A longer second sentence".
Proof.
  split; [apply mem_In; vm_compute; reflexivity|].
  split; [reflexivity|].
  split; [apply mem_not_In; vm_compute; reflexivity|].
  vm_compute; reflexivity.
Qed.

(** C8, amended: the loop discards exactly the trimmed sentences of at most
    10 characters and the exact duplicates, the first occurrence winning
    and the order kept; so every trimmed sentence longer than 10 characters
    is among the surviving sentences, once, and occurs in the output
    whenever the output is not truncated. *)
Theorem normalizer_keeps_long_first_occurrences (text : str) :
  unique_sentences text
  = first_occurrences (filter long_enough (trimmed_sentences text))
  /\ NoDup (unique_sentences text)
  /\ (forall s, In s (unique_sentences text)
                <-> In s (trimmed_sentences text) /\ 10 < len s)
  /\ (forall s max_length,
         In s (trimmed_sentences text) -> 10 < len s ->
         len (deduplicated text) <= max_length ->
         occurs_in s (clean_and_deduplicate_text text max_length)).
Proof.
  assert (Hin : forall s, In s (unique_sentences text)
                          <-> In s (trimmed_sentences text) /\ 10 < len s).
  { intros s. rewrite unique_sentences_spec, first_occurrences_In, filter_In.
    unfold long_enough. now rewrite Z.ltb_lt. }
  split; [apply unique_sentences_spec|].
  split; [rewrite unique_sentences_spec; apply first_occurrences_NoDup|].
  split; [exact Hin|].
  intros s max_length Hs Hlen Hfit. unfold clean_and_deduplicate_text.
  apply Z.ltb_ge in Hfit. rewrite Hfit.
  apply join_occurs, Hin. now split.
Qed.

Lemma normalizer_keeps_long_first_occurrences_witness :
  occurs_in (lit "Goodbye now, friend")
            (clean_and_deduplicate_text repeated_text default_max_length).
Proof.
  apply (proj2 (proj2 (proj2
           (normalizer_keeps_long_first_occurrences repeated_text)))).
  - apply mem_In. vm_compute. reflexivity.
  - vm_compute. reflexivity.
  - vm_compute. discriminate.
Defined.

(** C9, as stated, fails: once the first pass truncates, a second pass
    changes the text again. *)
Lemma normalizer_not_idempotent_when_truncating :
  clean_and_deduplicate_text
    (clean_and_deduplicate_text two_sentence_text 16) 16
  <> clean_and_deduplicate_text two_sentence_text 16.
Proof. vm_compute. discriminate. Qed.

(** C9, amended: whenever the deduplicated text fits in the maximum length,
    so that the first pass does not truncate, normalizing the output again
    leaves it unchanged. *)
Theorem normalizer_idempotent_without_truncation (text : str) (max_length : Z) :
  len (deduplicated text) <= max_length ->
  clean_and_deduplicate_text
    (clean_and_deduplicate_text text max_length) max_length
  = clean_and_deduplicate_text text max_length.
Proof.
  intros Hfit. unfold clean_and_deduplicate_text.
  pose proof (proj2 (Z.ltb_ge _ _) Hfit) as E. rewrite E.
  rewrite deduplicated_fixed. now rewrite E.
Qed.

Lemma normalizer_idempotent_without_truncation_witness :
  len (deduplicated repeated_text) <= default_max_length
  /\ clean_and_deduplicate_text
       (clean_and_deduplicate_text repeated_text default_max_length)
       default_max_length
     = clean_and_deduplicate_text repeated_text default_max_length.
Proof.
  split; [vm_compute; discriminate|].
  apply (normalizer_idempotent_without_truncation repeated_text
           default_max_length).
  vm_compute. discriminate.
Defined.

(** C10, as stated, fails for a negative maximum length: the slice then
    counts from the end, and the output is longer than the maximum plus the
    23 characters of the marker. *)
Lemma normalizer_bound_fails_for_negative_max :
  clean_and_deduplicate_text [] (-1) = truncation_marker
  /\ len (clean_and_deduplicate_text [] (-1)) = 23
  /\ ~ len (clean_and_deduplicate_text [] (-1)) <= -1 + 23.
Proof.
  split; [reflexivity|]. split; [reflexivity|]. vm_compute. intros H. now apply H.
Qed.

(** C10, amended: for every input and every maximum length that is not
    negative, the output has at most the maximum length plus 23 characters;
    a deduplicated text longer than the maximum is cut to its first
    [max_length] characters and the 23-character marker is appended, which
    makes the output exceed the maximum; a text that fits is returned as it
    is. *)
Theorem normalizer_length_bound (text : str) (max_length : Z) :
  0 <= max_length ->
  len truncation_marker = 23
  /\ len (clean_and_deduplicate_text text max_length) <= max_length + 23
  /\ (max_length < len (deduplicated text) ->
      clean_and_deduplicate_text text max_length
      = firstn (Z.to_nat max_length) (deduplicated text) ++ truncation_marker
      /\ len (clean_and_deduplicate_text text max_length) = max_length + 23)
  /\ (len (deduplicated text) <= max_length ->
      clean_and_deduplicate_text text max_length = deduplicated text).
Proof.
  intros Hm. unfold clean_and_deduplicate_text, slice_to.
  pose proof (proj2 (Z.leb_le 0 max_length) Hm) as E0. rewrite E0.
  assert (Hcut : max_length < len (deduplicated text) ->
                 len (firstn (Z.to_nat max_length) (deduplicated text)
                      ++ truncation_marker) = max_length + 23).
  { intros Hlt. rewrite len_app. unfold len in *. rewrite length_firstn.
    change (Z.of_nat (length truncation_marker)) with 23. lia. }
  split; [reflexivity|].
  destruct (max_length <? len (deduplicated text)) eqn:E.
  - apply Z.ltb_lt in E. split; [rewrite Hcut by assumption; lia|].
    split; [intros _; split; [reflexivity | now apply Hcut] | lia].
  - apply Z.ltb_ge in E. split; [lia|]. split; [lia | reflexivity].
Qed.

Lemma normalizer_length_bound_witness :
  0 <= 16
  /\ clean_and_deduplicate_text two_sentence_text 16
     = lit "aaaaaaaaaaaa. bb... [content truncated]"
  /\ len (clean_and_deduplicate_text two_sentence_text 16) = 16 + 23.
Proof.
  split; [lia|].
  destruct (normalizer_length_bound two_sentence_text 16 ltac:(lia))
    as (_ & _ & Hcut & _).
  destruct Hcut as [E L]; [vm_compute; reflexivity|].
  split; [rewrite E; vm_compute; reflexivity | exact L].
Defined.

(* ================================================================== *)
(** ** The strategies never raise *)
(* ================================================================== *)

Section Strategies.

Variable W : World.
Variable settings : Settings.

Lemma fetch_page_shape (u : str) :
  exists u' r, fetch_page W u = ([HttpGet u'], r).
Proof.
  unfold fetch_page, perform, try_except.
  match goal with |- context [requests_get W ?x] =>
    exists x; destruct (requests_get W x) as [p|e] end.
  - eauto.
  - destruct (is_request_exception e); simpl; eauto.
Qed.

Lemma scrape_related_returns (links : list str) :
  forall all_text, exists t r,
    scrape_related W links all_text = (t, Returned r) /\ quiet t.
Proof.
  induction links as [|l rest IH]; intros all_text; simpl.
  - exists [], all_text. split; [reflexivity | constructor].
  - destruct (fetch_page_shape l) as (u' & r & E). rewrite E.
    destruct r as [page|e]; simpl.
    + destruct (IH (all_text ++ [terms_section l
                  (get_text [space] true (BeautifulSoup W (fst page)))]))
        as (t & r & E' & Q).
      rewrite E'. exists ([HttpGet u'] ++ [] ++ t), r. split; [reflexivity|].
      simpl. constructor; [reflexivity | assumption].
    + destruct (IH all_text) as (t & r & E' & Q). rewrite E'.
      exists (([HttpGet u'] ++ []) ++ t), r. split; [reflexivity|].
      simpl. constructor; [reflexivity | assumption].
Qed.

Lemma static_returns (u : str) (n : Z) :
  exists t r,
    _scrape_static W u n = (t, Returned r) /\ quiet t
    /\ mode_used r = STATIC /\ url r = u /\ well_formed r
    /\ (success r = true -> char_count r = len (content r)).
Proof.
  unfold _scrape_static, emit, bind at 1.
  destruct (fetch_page_shape u) as (u' & r & E). rewrite E.
  destruct r as [[html final]|e]; simpl.
  - unfold lift.
    destruct (find_terms_links (urljoin W) (BeautifulSoup W html) final)
      as [links|e]; simpl.
    + match goal with |- context [scrape_related W ?l ?a] =>
        destruct (scrape_related_returns l a) as (t & texts & E' & Q) end.
      rewrite E'. simpl. eexists _, _. split; [reflexivity|].
      split; [constructor; [reflexivity|]; constructor; [reflexivity|];
              now rewrite app_nil_r|].
      repeat split; simpl; try discriminate; try congruence.
    + eexists _, _. split; [reflexivity|].
      split; [repeat constructor|].
      repeat split; simpl; try discriminate; try congruence.
  - eexists _, _. split; [reflexivity|].
    split; [repeat constructor|].
    repeat split; simpl; try discriminate; try congruence.
Qed.

Lemma dynamic_returns (u : str) :
  exists t r,
    _scrape_dynamic W settings u = (t, Returned r)
    /\ mode_used r = DYNAMIC /\ url r = u /\ well_formed r
    /\ (success r = true ->
        exists text_content,
          content r = dynamic_section (final_url r) text_content
          /\ char_count r = len text_content).
Proof.
  unfold _scrape_dynamic, emit, perform, completes, bind, try_except, finally.
  destruct (playwright W u) as [l c p g pu pc cl]; simpl.
  destruct l as [e|]; simpl;
    [|destruct c as [e|]; simpl;
      [|destruct p as [e|]; simpl;
        [|destruct g as [e|]; simpl;
          [destruct (is_playwright_timeout e); simpl
          |destruct pc as [html|e]; simpl;
           [|destruct (is_playwright_timeout e); simpl]];
          destruct cl as [e'|]; simpl]]];
    (eexists _, _; split; [reflexivity|];
     repeat split; simpl; try discriminate; try congruence; eauto).
Qed.

Lemma auto_returns_one_of (u : str) (n : Z) (s d : ScrapeResult) :
  returned (_scrape_static W u n) s ->
  returned (_scrape_dynamic W settings u) d ->
  returned (scrape_page_async W settings u AUTO n) d
  \/ returned (scrape_page_async W settings u AUTO n) s.
Proof.
  unfold returned, result_of, scrape_page_async, bind.
  destruct (_scrape_static W u n) as [ts [s'|e]]; simpl; [|discriminate].
  intros [= ->].
  destruct (_scrape_dynamic W settings u) as [td [d'|e]]; simpl;
    [|discriminate].
  intros [= ->].
  destruct (success s && is_likely_incomplete settings s); simpl; [|now right].
  destruct (enable_dynamic_scraping settings); simpl; [|now right].
  destruct (success d && negb (is_likely_incomplete settings d)); simpl;
    [now left | now right].
Qed.

End Strategies.

(* ================================================================== *)
(** ** Properties of the orchestrator and of the strategies *)
(* ================================================================== *)

(** C1.  In AUTO mode the static strategy runs first, both strategies
    return a result, and the orchestrator returns the dynamic result exactly
    when the static result succeeded and is likely incomplete, dynamic
    scraping is enabled, and the dynamic result succeeded and is not likely
    incomplete; in every other case it returns the static result. *)
Theorem auto_mode_policy (W : World) (settings : Settings) (u : str) (n : Z) :
  exists s d,
    returned (_scrape_static W u n) s
    /\ returned (_scrape_dynamic W settings u) d
    /\ (exists rest, trace (scrape_page_async W settings u AUTO n)
                     = trace (_scrape_static W u n) ++ rest)
    /\ returned (scrape_page_async W settings u AUTO n)
         (if success s && is_likely_incomplete settings s
             && enable_dynamic_scraping settings
             && success d && negb (is_likely_incomplete settings d)
          then d else s)
    /\ (returned (scrape_page_async W settings u AUTO n) d
        <-> success s && is_likely_incomplete settings s
            && enable_dynamic_scraping settings
            && success d && negb (is_likely_incomplete settings d) = true).
Proof.
  destruct (static_returns W u n) as (ts & s & Es & _ & Ms & _).
  destruct (dynamic_returns W settings u) as (td & d & Ed & Md & _).
  assert (Hne : Returned s <> Returned d) by (intros [= ->]; congruence).
  exists s, d. unfold returned, result_of, trace, scrape_page_async, bind.
  rewrite Es. simpl.
  destruct (success s), (is_likely_incomplete settings s),
    (enable_dynamic_scraping settings); simpl;
    try rewrite Ed; simpl;
    try (destruct (success d), (is_likely_incomplete settings d); simpl);
    (split; [reflexivity|]); (split; [reflexivity|]);
    (split; [eexists; try reflexivity; now rewrite app_nil_r|]);
    (split; [reflexivity|]);
    split; intros H; try reflexivity; try discriminate; try (now elim Hne).
Qed.

(** C2.  In AUTO mode, when the static result is not likely incomplete, and
    also when the static strategy failed, the run consists of the static
    strategy's calls alone: the dynamic strategy is not entered and no
    browser call is made, and the static result is what is returned. *)
Theorem auto_mode_no_needless_escalation
        (W : World) (settings : Settings) (u : str) (n : Z) (s : ScrapeResult) :
  returned (_scrape_static W u n) s ->
  is_likely_incomplete settings s = false \/ success s = false ->
  trace (scrape_page_async W settings u AUTO n) = trace (_scrape_static W u n)
  /\ (forall ev, In ev (trace (scrape_page_async W settings u AUTO n)) ->
                 dynamic_event ev = false)
  /\ returned (scrape_page_async W settings u AUTO n) s.
Proof.
  intros Hs Hcase.
  destruct (static_returns W u n) as (ts & s' & Es & Q & _).
  unfold returned, result_of in Hs. rewrite Es in Hs. simpl in Hs.
  injection Hs as ->.
  assert (E : scrape_page_async W settings u AUTO n = (ts, Returned s)).
  { unfold scrape_page_async, bind. rewrite Es.
    assert (G : success s && is_likely_incomplete settings s = false).
    { destruct Hcase as [-> | ->]; [apply andb_false_r | reflexivity]. }
    rewrite G. simpl. now rewrite app_nil_r. }
  rewrite E, Es. split; [reflexivity|]. split; [|reflexivity].
  intros ev Hev. exact (proj1 (Forall_forall _ _) Q ev Hev).
Qed.

Lemma auto_mode_no_needless_escalation_witness :
  trace (scrape_page_async offline_world default_settings example_url AUTO 5)
  = [Invoked STATIC example_url; HttpGet example_url]
  /\ exists s, success s = false
     /\ returned (scrape_page_async offline_world default_settings
                                    example_url AUTO 5) s.
Proof.
  pose (s := {| url := example_url; final_url := example_url; content := [];
                char_count := 0; mode_used := STATIC; success := false;
                error := Some (lit "Failed to fetch webpage: Connection refused")
             |}).
  destruct (auto_mode_no_needless_escalation offline_world default_settings
              example_url 5 s) as (Ht & _ & Hr).
  - vm_compute. reflexivity.
  - right. reflexivity.
  - split; [rewrite Ht; vm_compute; reflexivity|].
    exists s. split; [reflexivity | exact Hr].
Defined.

(** C4.  The static strategy, the dynamic strategy and the orchestrator in
    every mode return a result, and in that result a failure has empty
    content and a character count of 0, and the error is present exactly
    when the result is a failure. *)
Theorem results_well_formed
        (W : World) (settings : Settings) (u : str) (mode : ScraperMode)
        (n : Z) :
  (exists r, returned (_scrape_static W u n) r /\ well_formed r)
  /\ (exists r, returned (_scrape_dynamic W settings u) r /\ well_formed r)
  /\ (exists r, returned (scrape_page_async W settings u mode n) r
                /\ well_formed r).
Proof.
  destruct (static_returns W u n) as (ts & s & Es & _ & _ & _ & Ws & _).
  destruct (dynamic_returns W settings u) as (td & d & Ed & _ & _ & Wd & _).
  assert (Hs : returned (_scrape_static W u n) s)
    by (unfold returned; now rewrite Es).
  assert (Hd : returned (_scrape_dynamic W settings u) d)
    by (unfold returned; now rewrite Ed).
  split; [now exists s|]. split; [now exists d|].
  destruct mode; simpl.
  - now exists s.
  - destruct (enable_dynamic_scraping settings); simpl;
      [now exists d | now exists s].
  - destruct (auto_returns_one_of W settings u n s d Hs Hd) as [H|H];
      [now exists d | now exists s].
Qed.

(** A successful static result counts the characters of its content. *)
Lemma static_char_count (W : World) (u : str) (n : Z) (r : ScrapeResult) :
  returned (_scrape_static W u n) r -> success r = true ->
  char_count r = len (content r).
Proof.
  destruct (static_returns W u n) as (t & r' & E & _ & _ & _ & _ & H).
  unfold returned. rewrite E. simpl. intros [= ->]. exact H.
Qed.

(** A successful dynamic result counts the rendered text
    only, so its content is longer than its count by the header line, 24
    characters and the final URL. *)
Lemma dynamic_char_count_gap
      (W : World) (settings : Settings) (u : str) (r : ScrapeResult) :
  returned (_scrape_dynamic W settings u) r -> success r = true ->
  len (content r) = char_count r + 24 + len (final_url r).
Proof.
  destruct (dynamic_returns W settings u) as (t & r' & E & _ & _ & _ & H).
  unfold returned. rewrite E. simpl. intros [= ->] Hs.
  destruct (H Hs) as (text & -> & ->). unfold dynamic_section.
  rewrite !len_app. change (len (lit "=== DYNAMIC PAGE (")) with 18.
  change (len (lit ") ===")) with 5. change (len [newline]) with 1. lia.
Qed.

(** C3 at a page that renders [Hello world]: the dynamic strategy succeeds
    with a count of 11 for a content of 55 characters. *)
Theorem dynamic_char_count_excludes_header :
  exists r,
    returned (_scrape_dynamic offline_world default_settings example_url) r
    /\ success r = true
    /\ content r = lit "=== DYNAMIC PAGE (https://example.com/) ==="
                   ++ [newline] ++ lit "Hello world"
    /\ char_count r = 11
    /\ len (content r) = 55
    /\ char_count r <> len (content r).
Proof.
  eexists. split; [vm_compute; reflexivity|]. simpl.
  repeat split; try reflexivity. vm_compute. discriminate.
Qed.




(* ================================================================== *)
(** ** Properties of the extractor and of the link discoverer *)
(* ================================================================== *)

Lemma occurs_in_nil (x : str) : occurs_in x [] -> x = [].
Proof.
  intros (b & a & E). symmetry in E.
  apply app_eq_nil in E. destruct E as [_ E].
  now apply app_eq_nil in E.
Qed.

Lemma texts_of_In (elements : list node) (e : node) :
  In e elements -> get_text [space] true e <> [] ->
  In (get_text [space] true e) (texts_of elements).
Proof.
  intros He Hne. unfold texts_of. apply filter_In. split.
  - now apply in_map.
  - unfold nonempty. now apply negb_true_iff, str_eqb_neq.
Qed.

(** C7 at the documents [<footer>No refunds after 30 days</footer>] and
    [<span class="site-footer">Fees may apply</span>]: the footer step, which
    its comment announces as the footer content, selects by tag and by
    class together.  A [footer] element without a matching class is not
    selected, and neither is an element of another tag than [footer] and
    [div] whose class contains the word; the text of neither reaches the
    output, which is empty. *)
Theorem footer_text_not_always_included :
  (In bare_footer (descendants (document [bare_footer]))
   /\ get_text [space] true bare_footer = lit "No refunds after 30 days"
   /\ extract_fine_print_sections (document [bare_footer]) = []
   /\ ~ occurs_in (get_text [space] true bare_footer)
                  (extract_fine_print_sections (document [bare_footer])))
  /\ (In span_footer (descendants (document [span_footer]))
      /\ attr_matches footer_re (get (lit "class")
                                     [(lit "class", Multi [lit "site-footer"])])
         = true
      /\ get_text [space] true span_footer = lit "Fees may apply"
      /\ extract_fine_print_sections (document [span_footer]) = []
      /\ ~ occurs_in (get_text [space] true span_footer)
                     (extract_fine_print_sections (document [span_footer]))).
Proof.
  split.
  - split; [left; reflexivity|]. split; [reflexivity|].
    split; [reflexivity|]. intros H. apply occurs_in_nil in H. discriminate H.
  - split; [left; reflexivity|]. split; [reflexivity|].
    split; [reflexivity|]. split; [reflexivity|].
    intros H. apply occurs_in_nil in H. discriminate H.
Qed.

(** What the footer step does select: for every parsed document, the
    output of the extractor contains the visible text of every [footer] or
    [div] element whose class attribute contains "footer",
    case-insensitively. *)
Lemma footer_class_text_included
        (soup : node) (name : str) (attrs : list (str * attr_value))
        (contents : list node) :
  In (Tag name attrs contents) (descendants soup) ->
  name = lit "footer" \/ name = lit "div" ->
  attr_matches footer_re (get (lit "class") attrs) = true ->
  occurs_in (get_text [space] true (Tag name attrs contents))
            (extract_fine_print_sections soup).
Proof.
  intros Hin Hname Hclass.
  set (e := Tag name attrs contents) in *.
  destruct (list_eq_dec ascii_dec (get_text [space] true e) []) as [E|N].
  - rewrite E. now exists [], (extract_fine_print_sections soup).
  - apply join_occurs. unfold fine_print_text. apply in_or_app. left.
    apply texts_of_In; [|assumption].
    unfold footers, find_all. apply filter_In. split; [assumption|].
    unfold e.
    change (mem name [lit "footer"; lit "div"]
            && attr_matches footer_re (get (lit "class") attrs) = true).
    rewrite Hclass, andb_true_r.
    destruct Hname as [-> | ->]; reflexivity.
Qed.

Lemma footer_class_text_included_witness :
  occurs_in (lit "Renews monthly")
            (extract_fine_print_sections (document [div_footer])).
Proof.
  apply (footer_class_text_included (document [div_footer]) (lit "div")
           [(lit "class", Multi [lit "page"; lit "Site-Footer"])]
           [NavigableString (lit " Renews ");
            Tag (lit "b") [] [NavigableString (lit "monthly")]]).
  - left. reflexivity.
  - right. reflexivity.
  - vm_compute. reflexivity.
Defined.

Section Links.

Variable urljoin : str -> str -> outcome str.

Lemma links_loop_spec (anchors : list node) (base_url : str) :
  forall links found_urls,
    links_loop urljoin anchors base_url links found_urls
    = match candidate_urls urljoin anchors base_url with
      | Raised e => Raised e
      | Returned urls =>
          Returned
            (links ++ filter (fun u => negb (mem u found_urls))
                             (first_occurrences
                                (filter (startswith (lit "http")) urls)))
      end.
Proof.
  unfold candidate_urls, matching_anchors.
  induction anchors as [|link rest IH]; intros links found_urls.
  - simpl. now rewrite app_nil_r.
  - cbn [links_loop filter].
    destruct (is_terms_link (lower (get_text [] true link))
                            (attr_text (lit "href") link)); [|apply IH].
    cbn [join_all].
    destruct (urljoin base_url (attr_text (lit "href") link)) as [u|e];
      [|reflexivity].
    destruct (startswith (lit "http") u) eqn:Hh.
    + rewrite andb_true_r.
      destruct (mem u found_urls) eqn:Hm; cbn [negb]; rewrite IH;
        destruct (join_all urljoin base_url _) as [urls|e]; try reflexivity;
        cbn [filter]; rewrite Hh; cbn [first_occurrences filter];
        rewrite Hm; cbn [negb]; rewrite filter_filter; f_equal.
      * f_equal. apply filter_ext_in. intros t _.
        destruct (str_eqb t u) eqn:E; simpl; [|reflexivity].
        apply str_eqb_eq in E. subst. now rewrite Hm.
      * rewrite <- app_assoc. simpl. do 2 f_equal.
        apply filter_ext. intros t. apply negb_orb.
    + rewrite andb_false_r, IH.
      destruct (join_all urljoin base_url _) as [urls|e]; [|reflexivity].
      cbn [filter]. now rewrite Hh.
Qed.

Lemma join_all_In (base_url : str) (links : list node) :
  forall urls,
    join_all urljoin base_url links = Returned urls ->
    forall u,
      In u urls
      <-> exists link,
            In link links
            /\ urljoin base_url (attr_text (lit "href") link) = Returned u.
Proof.
  induction links as [|link rest IH]; cbn [join_all]; intros urls E u.
  - injection E as <-. split; [intros []|intros (? & [] & _)].
  - destruct (urljoin base_url (attr_text (lit "href") link)) as [v|e] eqn:Ev;
      [|discriminate].
    destruct (join_all urljoin base_url rest) as [vs|e]; [|discriminate].
    injection E as <-. specialize (IH vs eq_refl u). split.
    + intros [<-|Hin].
      * exists link. split; [now left|exact Ev].
      * apply IH in Hin. destruct Hin as (l & Hl & El).
        exists l. split; [now right|exact El].
    + intros (l & [<-|Hl] & El).
      * left. congruence.
      * right. apply IH. now exists l.
Qed.

Lemma join_all_raised (base_url : str) (links : list node) (e : exn) :
  join_all urljoin base_url links = Raised e ->
  exists link,
    In link links
    /\ urljoin base_url (attr_text (lit "href") link) = Raised e.
Proof.
  induction links as [|link rest IH]; cbn [join_all]; [discriminate|].
  destruct (urljoin base_url (attr_text (lit "href") link)) as [v|e'] eqn:Ev.
  - destruct (join_all urljoin base_url rest) as [vs|e']; [discriminate|].
    intros [= <-]. destruct (IH eq_refl) as (l & Hl & El).
    exists l. split; [now right|exact El].
  - intros [= <-]. exists link. split; [now left|exact Ev].
Qed.

Lemma join_all_returns (base_url : str) (links : list node) :
  (forall link,
      In link links ->
      exists u, urljoin base_url (attr_text (lit "href") link) = Returned u) ->
  exists urls, join_all urljoin base_url links = Returned urls.
Proof.
  induction links as [|link rest IH]; cbn [join_all]; intros H.
  - now exists [].
  - destruct (H link (or_introl eq_refl)) as (u & ->).
    destruct IH as (urls & ->); [intros l Hl; apply H; now right|].
    now exists (u :: urls).
Qed.

(** When [urljoin] raises on no matching anchor, the discoverer returns
    the matching resolved URLs that start with [http], each once, in the
    order of their first occurrence; otherwise it raises what [urljoin]
    raised first. *)
Lemma find_terms_links_spec (soup : node) (base_url : str) :
  find_terms_links urljoin soup base_url
  = match candidate_urls urljoin
            (find_all [lit "a"] (Present (lit "href")) soup) base_url with
    | Raised e => Raised e
    | Returned urls =>
        Returned (first_occurrences (filter (startswith (lit "http")) urls))
    end.
Proof.
  unfold find_terms_links. rewrite links_loop_spec.
  destruct (candidate_urls urljoin _ base_url) as [urls|e]; [|reflexivity].
  simpl. f_equal. apply forallb_filter_id, forallb_forall. reflexivity.
Qed.

Lemma find_terms_links_NoDup (soup : node) (base_url : str)
      (links : list str) :
  find_terms_links urljoin soup base_url = Returned links -> NoDup links.
Proof.
  rewrite find_terms_links_spec.
  destruct (candidate_urls urljoin _ base_url); [|discriminate].
  intros [= <-]. apply first_occurrences_NoDup.
Qed.

Lemma find_terms_links_http (soup : node) (base_url u : str)
      (links : list str) :
  find_terms_links urljoin soup base_url = Returned links ->
  In u links -> startswith (lit "http") u = true.
Proof.
  rewrite find_terms_links_spec.
  destruct (candidate_urls urljoin _ base_url); [|discriminate].
  intros [= <-]. rewrite first_occurrences_In, filter_In. tauto.
Qed.

(** A resolved URL of the [mailto] scheme is never returned. *)
Lemma find_terms_links_no_mailto (soup : node) (base_url u : str)
      (links : list str) :
  find_terms_links urljoin soup base_url = Returned links ->
  startswith (lit "mailto:") u = true -> ~ In u links.
Proof.
  intros E Hm Hin. apply (find_terms_links_http _ _ _ _ E) in Hin.
  destruct u as [|c u]; [discriminate|].
  change (lit "mailto:") with ("m"%char :: lit "ailto:") in Hm.
  change (lit "http") with ("h"%char :: lit "ttp") in Hin.
  cbn [startswith] in Hm, Hin.
  destruct (ascii_dec "m" c) as [<-|]; [|discriminate].
  destruct (ascii_dec "h" "m"); discriminate.
Qed.

End Links.

(** C6 at the anchor [<a href="httpx://example.com/terms">Terms</a>] on the
    page [https://example.com/]: the reference has a scheme of its own, so
    joining it to the base leaves it unchanged; it starts with [http], so the
    discoverer returns it, although its scheme is neither [http] nor
    [https]. *)
Theorem non_http_scheme_link_kept (urljoin : str -> str -> outcome str) :
  urljoin example_url (lit "httpx://example.com/terms")
  = Returned (lit "httpx://example.com/terms") ->
  find_terms_links urljoin (document [httpx_anchor]) example_url
  = Returned [lit "httpx://example.com/terms"]
  /\ uses_http_scheme (lit "httpx://example.com/terms") = false.
Proof.
  intros E. split; [|reflexivity].
  unfold find_terms_links.
  change (find_all [lit "a"] (Present (lit "href")) (document [httpx_anchor]))
    with [httpx_anchor].
  cbn [links_loop].
  change (attr_text (lit "href") httpx_anchor)
    with (lit "httpx://example.com/terms").
  rewrite E. reflexivity.
Qed.

Lemma non_http_scheme_link_kept_witness :
  find_terms_links (fun _ href => Returned href) (document [httpx_anchor])
                   example_url
  = Returned [lit "httpx://example.com/terms"].
Proof.
  apply (non_http_scheme_link_kept (fun _ href => Returned href)).
  reflexivity.
Defined.

(* ================================================================== *)
(** ** Worked cases *)
(* ================================================================== *)

(** Duplicates are removed and a short fragment is dropped. *)
Example normalizer_removes_duplicates :
  clean_and_deduplicate_text
    (lit "Hello world. Hello world. Goodbye now. Bye.") default_max_length
  = lit "Hello world. Goodbye now".
Proof. vm_compute. reflexivity. Qed.

(** Two anchors that resolve to one URL give one entry; the mail link is
    left out although its text matches a pattern. *)
Example discoverer_on_linked_page :
  find_terms_links join_on_example linked_page example_url
  = Returned [lit "https://example.com/terms"].
Proof. vm_compute. reflexivity. Qed.

(** A matching anchor whose reference [urljoin] rejects makes the
    discoverer raise, although the anchor before it resolves. *)
Example discoverer_on_half_broken_page :
  find_terms_links strict_join half_broken_page example_url
  = Raised (OtherException (lit "Invalid IPv6 URL")).
Proof. vm_compute. reflexivity. Qed.

(** A thin static page and a browser that times out: AUTO escalates, the
    browser is closed, and the static result is what comes back. *)
Example auto_keeps_static_after_timeout :
  scrape_page_async stalled_world default_settings example_url AUTO 5
  = ([Invoked STATIC example_url; HttpGet example_url;
      Invoked DYNAMIC example_url; BrowserLaunch; BrowserNewContext;
      BrowserNewPage; PageGoto example_url 10000; BrowserClose],
     Returned
       {| url := example_url; final_url := example_url;
          content := [newline] ++ lit "=== FULL PAGE CONTENT ==="
                     ++ [newline] ++ lit "Hello world";
          char_count := 38; mode_used := STATIC; success := true;
          error := None |}).
Proof. vm_compute. reflexivity. Qed.

(* ================================================================== *)
(** ** Further properties of the static strategy *)
(* ================================================================== *)

Section StaticStrategy.

Variable W : World.

Lemma requested_url_scheme (u : str) :
  startswith (lit "http://") (requested_url u)
  || startswith (lit "https://") (requested_url u) = true.
Proof.
  unfold requested_url.
  destruct (startswith (lit "http://") u || startswith (lit "https://") u)
    eqn:E; [exact E|].
  apply orb_true_iff. right. reflexivity.
Qed.

Lemma fetch_page_run (u : str) :
  fetch_page W u
  = ([HttpGet (requested_url u)],
     match requests_get W (requested_url u) with
     | Returned page => Returned page
     | Raised e =>
         if is_request_exception e
         then Raised (OtherException
                        (lit "Failed to fetch webpage: " ++ str_of_exn e))
         else Raised e
     end).
Proof.
  unfold fetch_page, perform, try_except, raise.
  fold (requested_url u).
  destruct (requests_get W (requested_url u)) as [page|e]; [reflexivity|].
  destruct (is_request_exception e); reflexivity.
Qed.

Lemma scrape_related_run (links : list str) :
  forall all_text,
    scrape_related W links all_text
    = (map (fun l => HttpGet (requested_url l)) links,
       Returned (all_text ++ related_sections W links)).
Proof.
  induction links as [|l rest IH]; intros all_text.
  - simpl. now rewrite app_nil_r.
  - cbn [scrape_related]. rewrite fetch_page_run.
    unfold related_sections. cbn [flat_map map].
    fold (related_sections W rest).
    destruct (requests_get W (requested_url l)) as [[html final]|e].
    + cbn. rewrite IH. cbn. now rewrite <- app_assoc.
    + assert (E : forall x : outcome (str * str),
                 (x = Raised e \/ exists m, x = Raised (OtherException m)) ->
                 bind (try_except
                         (bind ([HttpGet (requested_url l)], x)
                               (fun page =>
                                  ret (all_text ++
                                       [terms_section l
                                          (get_text [space] true
                                             (BeautifulSoup W (fst page)))])))
                         any_exception (fun _ => ret all_text))
                      (fun all_text0 => scrape_related W rest all_text0)
                 = (HttpGet (requested_url l)
                      :: map (fun l0 => HttpGet (requested_url l0)) rest,
                    Returned (all_text ++ related_sections W rest))).
      { intros x [-> | [m ->]]; cbn; rewrite IH; reflexivity. }
      destruct (is_request_exception e); apply E; eauto.
Qed.

Lemma static_run (u : str) (n : Z) :
  _scrape_static W u n
  = match requests_get W (requested_url u) with
    | Returned (html, final) =>
        let soup := BeautifulSoup W html in
        match find_terms_links (urljoin W) soup final with
        | Returned found =>
            let links := slice_to found n in
            (Invoked STATIC u :: HttpGet (requested_url u)
               :: map (fun l => HttpGet (requested_url l)) links,
             Returned
               {| url := u; final_url := final;
                  content := join [newline; newline]
                                  (static_texts W soup final links);
                  char_count := len (join [newline; newline]
                                          (static_texts W soup final links));
                  mode_used := STATIC; success := true; error := None |})
        | Raised e =>
            ([Invoked STATIC u; HttpGet (requested_url u)],
             Returned (failure STATIC u (str_of_exn e)))
        end
    | Raised e =>
        ([Invoked STATIC u; HttpGet (requested_url u)],
         Returned
           (failure STATIC u
              (if is_request_exception e
               then lit "Failed to fetch webpage: " ++ str_of_exn e
               else str_of_exn e)))
    end.
Proof.
  unfold _scrape_static. rewrite fetch_page_run.
  destruct (requests_get W (requested_url u)) as [[html final]|e].
  - cbn. unfold lift.
    destruct (find_terms_links (urljoin W) (BeautifulSoup W html) final)
      as [found|e]; [|reflexivity].
    cbn. rewrite scrape_related_run. cbn. unfold static_texts.
    rewrite app_nil_r, <- app_assoc. reflexivity.
  - destruct (is_request_exception e); reflexivity.
Qed.

Lemma count_gets_map (links : list str) :
  count is_http_get (map (fun l => HttpGet (requested_url l)) links)
  = Z.of_nat (length links).
Proof.
  unfold count. f_equal. induction links as [|l r IH]; simpl; congruence.
Qed.

Lemma slice_to_length {A} (xs : list A) (n : Z) :
  0 <= n -> Z.of_nat (length (slice_to xs n)) <= n.
Proof.
  intros Hn. unfold slice_to.
  rewrite (proj2 (Z.leb_le 0 n) Hn), length_firstn. lia.
Qed.

Lemma join_length_ge (sep x : str) (l : list str) :
  In x l -> len x <= len (join sep l).
Proof.
  intros H. destruct (join_occurs sep x l H) as (b & a & ->).
  rewrite !len_app. pose proof (len_nonneg b). pose proof (len_nonneg a). lia.
Qed.

End StaticStrategy.

(** X1.  [fetch_page] makes exactly one request.  It asks for the URL as
    given when that begins with [http://] or [https://], and for the URL
    with [https://] in front otherwise, so that what it asks for always
    begins with one of the two. *)
Theorem fetch_page_requests_web_url (W : World) (u : str) :
  trace (fetch_page W u) = [HttpGet (requested_url u)]
  /\ (requested_url u = u \/ requested_url u = lit "https://" ++ u)
  /\ (requested_url u = u
      <-> startswith (lit "http://") u || startswith (lit "https://") u = true)
  /\ startswith (lit "http://") (requested_url u)
     || startswith (lit "https://") (requested_url u) = true.
Proof.
  rewrite fetch_page_run. split; [reflexivity|].
  split; [|split; [|apply requested_url_scheme]].
  - unfold requested_url.
    destruct (startswith (lit "http://") u || startswith (lit "https://") u);
      auto.
  - split.
    + intros E. rewrite <- E at 1 2. apply requested_url_scheme.
    + intros E. unfold requested_url. now rewrite E.
Qed.

(** X2.  When the main page is fetched and the link discoverer returns,
    the static strategy succeeds whatever happens to the related pages.  It
    requests the main page and then the first [max_related_pages] discovered
    links, each once and in discovery order; its content is the main-page
    section (when the extractor found text), the full-page section and the
    sections of the related pages that could be fetched, separated by blank
    lines.  When the discoverer raises, because [urljoin] rejects the [href]
    of a matching anchor, the strategy makes no further request and returns
    a failure with the text of that exception. *)
Theorem static_run_on_success
        (W : World) (u : str) (n : Z) (html final : str) :
  requests_get W (requested_url u) = Returned (html, final) ->
  let soup := BeautifulSoup W html in
  (forall found,
      find_terms_links (urljoin W) soup final = Returned found ->
      let links := slice_to found n in
      _scrape_static W u n
      = (Invoked STATIC u :: HttpGet (requested_url u)
           :: map (fun l => HttpGet (requested_url l)) links,
         Returned
           {| url := u; final_url := final;
              content := join [newline; newline]
                              (static_texts W soup final links);
              char_count := len (join [newline; newline]
                                      (static_texts W soup final links));
              mode_used := STATIC; success := true; error := None |}))
  /\ (forall e,
         find_terms_links (urljoin W) soup final = Raised e ->
         _scrape_static W u n
         = ([Invoked STATIC u; HttpGet (requested_url u)],
            Returned (failure STATIC u (str_of_exn e)))).
Proof.
  intros E. cbv zeta. split.
  - intros found Ef. rewrite static_run, E. cbv zeta. now rewrite Ef.
  - intros e Ef. rewrite static_run, E. cbv zeta. now rewrite Ef.
Qed.

(** X3.  When the fetch of the main page fails, the static strategy makes
    no further request and returns a failure that echoes the URL; a failure
    of [requests] is reported as [Failed to fetch webpage: <cause>], any
    other exception by its own text. *)
Theorem static_run_on_failure (W : World) (u : str) (n : Z) (e : exn) :
  requests_get W (requested_url u) = Raised e ->
  _scrape_static W u n
  = ([Invoked STATIC u; HttpGet (requested_url u)],
     Returned
       (failure STATIC u
          (if is_request_exception e
           then lit "Failed to fetch webpage: " ++ str_of_exn e
           else str_of_exn e))).
Proof. intros E. rewrite static_run, E. reflexivity. Qed.

(** X4.  For a [max_related_pages] that is not negative, the static
    strategy makes at most [1 + max_related_pages] requests. *)
Theorem static_request_bound (W : World) (u : str) (n : Z) :
  0 <= n ->
  count is_http_get (trace (_scrape_static W u n)) <= 1 + n.
Proof.
  intros Hn. rewrite static_run.
  destruct (requests_get W (requested_url u)) as [[html final]|e].
  - cbv zeta.
    destruct (find_terms_links (urljoin W) (BeautifulSoup W html) final)
      as [found|e].
    + unfold trace. cbn [fst].
      change (count is_http_get
                (Invoked STATIC u :: HttpGet (requested_url u) :: ?t))
        with (Z.of_nat (S (length (filter is_http_get t)))).
      rewrite Nat2Z.inj_succ.
      pose proof (count_gets_map (slice_to found n)) as Hc.
      unfold count in Hc. rewrite Hc.
      pose proof (slice_to_length found n Hn). lia.
    + change (1 <= 1 + n). lia.
  - change (1 <= 1 + n). lia.
Qed.

(** X5.  A successful static result is never empty: its content holds the
    full-page header, so its character count is at least 27. *)
Theorem static_success_has_full_page_section
        (W : World) (u : str) (n : Z) (r : ScrapeResult) :
  returned (_scrape_static W u n) r ->
  success r = true ->
  occurs_in ([newline] ++ lit "=== FULL PAGE CONTENT ===" ++ [newline])
            (content r)
  /\ 27 <= char_count r.
Proof.
  unfold returned. rewrite static_run.
  destruct (requests_get W (requested_url u)) as [[html final]|e];
    cbv zeta;
    [destruct (find_terms_links (urljoin W) (BeautifulSoup W html) final)
       as [found|e]|];
    cbn [result_of snd]; intros [= <-]; cbn; try discriminate.
  intros _.
  set (soup := BeautifulSoup W html).
  set (links := slice_to found n).
  assert (Hin : In (full_section (get_text [space] true soup))
                   (static_texts W soup final links)).
  { unfold static_texts. apply in_or_app. right. now left. }
  split.
  - destruct (join_occurs [newline; newline] _ _ Hin) as (b & a & ->).
    exists b, (get_text [space] true soup ++ a).
    unfold full_section. now rewrite <- !app_assoc.
  - pose proof (join_length_ge [newline; newline] _ _ Hin) as H.
    unfold full_section in H at 1. rewrite !len_app in H.
    change (len [newline]) with 1 in H.
    change (len (lit "=== FULL PAGE CONTENT ===")) with 25 in H.
    pose proof (len_nonneg (get_text [space] true soup)). lia.
Qed.

(* ================================================================== *)
(** ** Further properties of the dynamic strategy *)
(* ================================================================== *)

Section DynamicStrategy.

Variable W : World.
Variable settings : Settings.

Lemma dynamic_run (u : str) :
  _scrape_dynamic W settings u
  = let s := playwright W u in
    let ms := dynamic_scraping_timeout settings * 1000 in
    let closing (pending : ScrapeResult) : ScrapeResult :=
      match close s with
      | Some e => failure DYNAMIC u (str_of_exn e)
      | None => pending
      end in
    match launch s with
    | Some e =>
        ([Invoked DYNAMIC u; BrowserLaunch],
         Returned (failure DYNAMIC u (str_of_exn e)))
    | None =>
    match new_context s with
    | Some e =>
        ([Invoked DYNAMIC u; BrowserLaunch; BrowserNewContext],
         Returned (failure DYNAMIC u (str_of_exn e)))
    | None =>
    match new_page s with
    | Some e =>
        ([Invoked DYNAMIC u; BrowserLaunch; BrowserNewContext;
          BrowserNewPage],
         Returned (failure DYNAMIC u (str_of_exn e)))
    | None =>
    match goto s with
    | Some e =>
        ([Invoked DYNAMIC u; BrowserLaunch; BrowserNewContext;
          BrowserNewPage; PageGoto u ms; BrowserClose],
         Returned (closing (failure DYNAMIC u (page_error settings e))))
    | None =>
        ([Invoked DYNAMIC u; BrowserLaunch; BrowserNewContext;
          BrowserNewPage; PageGoto u ms; PageContent; BrowserClose],
         Returned
           (closing
              match page_content s with
              | Raised e => failure DYNAMIC u (page_error settings e)
              | Returned html =>
                  let text := get_text [space] true (BeautifulSoup W html) in
                  {| url := u; final_url := page_url s;
                     content := dynamic_section (page_url s) text;
                     char_count := len text; mode_used := DYNAMIC;
                     success := true; error := None |}
              end))
    end end end end.
Proof.
  unfold _scrape_dynamic, emit, perform, completes, bind, try_except, finally,
    page_error, failure.
  destruct (playwright W u) as [l c p g pu pc cl]; simpl.
  destruct l as [e|]; simpl; [reflexivity|].
  destruct c as [e|]; simpl; [reflexivity|].
  destruct p as [e|]; simpl; [reflexivity|].
  destruct g as [e|]; simpl.
  - destruct (is_playwright_timeout e); destruct cl; reflexivity.
  - destruct pc as [html|e]; simpl.
    + destruct cl; reflexivity.
    + destruct (is_playwright_timeout e); destruct cl; reflexivity.
Qed.

End DynamicStrategy.

(** X6.  The dynamic strategy closes the browser exactly when it has opened
    a page in it: then [browser.close()] is called once, as the last call,
    whether navigation and rendering succeed or raise; when the launch, the
    context or the page fails, it is not called at all. *)
Theorem browser_closed_iff_page_opened
        (W : World) (settings : Settings) (u : str) :
  count is_browser_close (trace (_scrape_dynamic W settings u))
  = (if page_opened (playwright W u) then 1 else 0)
  /\ (page_opened (playwright W u) = true ->
      exists t, trace (_scrape_dynamic W settings u) = t ++ [BrowserClose]).
Proof.
  rewrite dynamic_run. unfold page_opened. cbv zeta.
  destruct (launch (playwright W u)); [split; [reflexivity|discriminate]|].
  destruct (new_context (playwright W u));
    [split; [reflexivity|discriminate]|].
  destruct (new_page (playwright W u)); [split; [reflexivity|discriminate]|].
  destruct (goto (playwright W u)); (split; [reflexivity|]); intros _.
  - now exists [Invoked DYNAMIC u; BrowserLaunch; BrowserNewContext;
                BrowserNewPage;
                PageGoto u (dynamic_scraping_timeout settings * 1000)].
  - now exists [Invoked DYNAMIC u; BrowserLaunch; BrowserNewContext;
                BrowserNewPage;
                PageGoto u (dynamic_scraping_timeout settings * 1000);
                PageContent].
Qed.



(* ================================================================== *)
(** ** Further properties of the orchestrator *)
(* ================================================================== *)

Lemma dynamic_makes_no_request (W : World) (settings : Settings) (u : str) :
  count is_http_get (trace (_scrape_dynamic W settings u)) = 0.
Proof.
  rewrite dynamic_run. cbv zeta.
  destruct (launch (playwright W u)); [reflexivity|].
  destruct (new_context (playwright W u)); [reflexivity|].
  destruct (new_page (playwright W u)); [reflexivity|].
  destruct (goto (playwright W u)); reflexivity.
Qed.

Lemma auto_run_cases (W : World) (settings : Settings) (u : str) (n : Z)
      (ts td : list Event) (s d : ScrapeResult) :
  _scrape_static W u n = (ts, Returned s) ->
  _scrape_dynamic W settings u = (td, Returned d) ->
  scrape_page_async W settings u AUTO n = (ts, Returned s)
  \/ (success s = true /\ enable_dynamic_scraping settings = true
      /\ (scrape_page_async W settings u AUTO n = (ts ++ td, Returned s)
          \/ (success d = true
              /\ scrape_page_async W settings u AUTO n
                 = (ts ++ td, Returned d)))).
Proof.
  intros Es Ed. unfold scrape_page_async, bind. rewrite Es.
  destruct (success s); simpl; [|left; now rewrite app_nil_r].
  destruct (is_likely_incomplete settings s); simpl;
    [|left; now rewrite app_nil_r].
  destruct (enable_dynamic_scraping settings); simpl;
    [|left; now rewrite app_nil_r].
  rewrite Ed. right. split; [reflexivity|]. split; [reflexivity|].
  destruct (success d); simpl; [|left; now rewrite app_nil_r].
  destruct (is_likely_incomplete settings d); simpl;
    [left | right; split; [reflexivity|]]; now rewrite app_nil_r.
Qed.

(** X9.  With dynamic scraping disabled in the settings, the orchestrator
    never enters the dynamic strategy and never calls the browser, in any
    mode, DYNAMIC included; what it returns is the result of the static
    strategy. *)
Theorem disabled_dynamic_never_touches_browser
        (W : World) (settings : Settings) (u : str) (mode : ScraperMode)
        (n : Z) :
  enable_dynamic_scraping settings = false ->
  scrape_page_async W settings u mode n = _scrape_static W u n
  /\ quiet (trace (scrape_page_async W settings u mode n)).
Proof.
  intros Hoff.
  destruct (static_returns W u n) as (ts & s & Es & Q & _).
  assert (E : scrape_page_async W settings u mode n = _scrape_static W u n).
  { destruct mode; simpl; rewrite ?Hoff; try reflexivity.
    unfold bind. rewrite Es.
    destruct (success s && is_likely_incomplete settings s); simpl;
      now rewrite app_nil_r. }
  split; [exact E|]. rewrite E, Es. exact Q.
Qed.

(** X10.  In every mode the orchestrator returns a result that echoes the
    URL it was given and names a concrete strategy, never AUTO: STATIC in
    STATIC mode, and DYNAMIC in DYNAMIC mode when dynamic scraping is
    enabled, in which case no request is made through [requests]. *)
Theorem orchestrator_result_names_its_strategy
        (W : World) (settings : Settings) (u : str) (mode : ScraperMode)
        (n : Z) :
  exists r,
    returned (scrape_page_async W settings u mode n) r
    /\ url r = u
    /\ mode_used r <> AUTO
    /\ (mode = STATIC -> mode_used r = STATIC)
    /\ (mode = DYNAMIC -> enable_dynamic_scraping settings = true ->
        mode_used r = DYNAMIC
        /\ count is_http_get (trace (scrape_page_async W settings u mode n))
           = 0).
Proof.
  destruct (static_returns W u n) as (ts & s & Es & _ & Ms & Us & _).
  destruct (dynamic_returns W settings u) as (td & d & Ed & Md & Ud & _).
  destruct mode.
  - exists s. unfold returned. simpl. rewrite Es.
    repeat split; try congruence; discriminate.
  - simpl. destruct (enable_dynamic_scraping settings) eqn:En; simpl.
    + exists d. unfold returned. rewrite Ed.
      repeat split; try congruence; try discriminate.
      rewrite <- Ed. apply dynamic_makes_no_request.
    + exists s. unfold returned. rewrite Es.
      repeat split; try congruence; discriminate.
  - destruct (auto_run_cases W settings u n ts td s d Es Ed)
      as [E | (_ & _ & [E | [_ E]])];
      [exists s | exists s | exists d]; unfold returned; rewrite E;
      repeat split; try congruence; discriminate.
Qed.

(** X11.  In AUTO mode a failure of the dynamic strategy is never what the
    caller gets: the orchestrator returns a failure exactly when the static
    strategy failed, and that failure is the static one. *)
Theorem auto_fails_only_when_static_fails
        (W : World) (settings : Settings) (u : str) (n : Z) :
  exists s r,
    returned (_scrape_static W u n) s
    /\ returned (scrape_page_async W settings u AUTO n) r
    /\ (success r = false <-> success s = false)
    /\ (success r = false -> r = s).
Proof.
  destruct (static_returns W u n) as (ts & s & Es & _).
  destruct (dynamic_returns W settings u) as (td & d & Ed & _).
  destruct (auto_run_cases W settings u n ts td s d Es Ed)
    as [E | (Hs & _ & [E | [Hd E]])].
  - exists s, s. unfold returned. rewrite Es, E. tauto.
  - exists s, s. unfold returned. rewrite Es, E. tauto.
  - exists s, d. unfold returned. rewrite Es, E.
    repeat split; try reflexivity; congruence.
Qed.

(* ================================================================== *)
(** ** Properties of the synchronous wrappers *)
(* ================================================================== *)

Lemma orchestrator_returns (W : World) (settings : Settings) (u : str)
      (mode : ScraperMode) (n : Z) :
  exists t r, scrape_page_async W settings u mode n = (t, Returned r).
Proof.
  destruct (static_returns W u n) as (ts & s & Es & _).
  destruct (dynamic_returns W settings u) as (td & d & Ed & _).
  destruct mode; simpl.
  - eauto.
  - destruct (enable_dynamic_scraping settings); simpl; eauto.
  - destruct (auto_run_cases W settings u n ts td s d Es Ed)
      as [E | (_ & _ & [E | [_ E]])]; eauto.
Qed.

Lemma static_success_length (W : World) (u : str) (n : Z) (r : ScrapeResult) :
  returned (_scrape_static W u n) r -> success r = true ->
  27 <= len (content r).
Proof.
  unfold returned. rewrite static_run.
  destruct (requests_get W (requested_url u)) as [[html final]|e];
    cbv zeta;
    [destruct (find_terms_links (urljoin W) (BeautifulSoup W html) final)
       as [found|e]|];
    cbn [result_of snd]; intros [= <-]; cbn; try discriminate.
  intros _.
  set (soup := BeautifulSoup W html). set (links := slice_to found n).
  assert (Hin : In (full_section (get_text [space] true soup))
                   (static_texts W soup final links)).
  { unfold static_texts. apply in_or_app. right. now left. }
  pose proof (join_length_ge [newline; newline] _ _ Hin) as H.
  unfold full_section in H at 1. rewrite !len_app in H.
  change (len [newline]) with 1 in H.
  change (len (lit "=== FULL PAGE CONTENT ===")) with 25 in H.
  pose proof (len_nonneg (get_text [space] true soup)). lia.
Qed.

Lemma auto_success_length (W : World) (settings : Settings) (u : str) (n : Z)
      (r : ScrapeResult) :
  returned (scrape_page_async W settings u AUTO n) r -> success r = true ->
  24 <= len (content r).
Proof.
  intros Hr Hs.
  destruct (static_returns W u n) as (ts & s & Es & _).
  destruct (dynamic_returns W settings u) as (td & d & Ed & _).
  assert (Rs : returned (_scrape_static W u n) s)
    by (unfold returned; now rewrite Es).
  assert (Rd : returned (_scrape_dynamic W settings u) d)
    by (unfold returned; now rewrite Ed).
  unfold returned in Hr.
  destruct (auto_run_cases W settings u n ts td s d Es Ed)
    as [E | (_ & _ & [E | [_ E]])];
    rewrite E in Hr; injection Hr as <-.
  - pose proof (static_success_length W u n s Rs Hs). lia.
  - pose proof (static_success_length W u n s Rs Hs). lia.
  - pose proof (dynamic_char_count_gap W settings u d Rd Hs) as G.
    destruct (dynamic_returns W settings u) as (t' & d' & Ed' & _ & _ & _ & H).
    rewrite Ed in Ed'. injection Ed' as _ <-.
    destruct (H Hs) as (text & _ & Hc).
    pose proof (len_nonneg text). pose proof (len_nonneg (final_url d)). lia.
Qed.

(** X12.  Under a running event loop [scrape_page] does no scraping and
    raises the [RuntimeError] of [asyncio.run]; the message the wrapper
    itself prepares never reaches the caller, because the handler that
    follows catches it.  Without a running loop it returns what
    [scrape_page_async] returns, after the same calls. *)
Theorem scrape_page_under_running_loop
        (W : World) (settings : Settings) (u : str) (mode : ScraperMode)
        (n : Z) :
  scrape_page W settings true u mode n
  = ([], inr (RuntimeError
                (lit "asyncio.run() cannot be called from a running event loop")))
  /\ exists r,
       returned (scrape_page_async W settings u mode n) r
       /\ scrape_page W settings false u mode n
          = (trace (scrape_page_async W settings u mode n), inl r).
Proof.
  split; [reflexivity|].
  destruct (orchestrator_returns W settings u mode n) as (t & r & E).
  exists r. unfold returned, scrape_page, asyncio_run. simpl.
  rewrite E. split; reflexivity.
Qed.

(** X13.  Called where no event loop runs, when the main page cannot be
    fetched, [scrape_url] raises an exception whose text chains the two
    layers: [Failed to scrape website: Failed to fetch webpage: <cause>];
    only the one request was made. *)
Theorem scrape_url_reports_fetch_failure
        (W : World) (settings : Settings) (u cause : str) (n : Z) :
  requests_get W (requested_url u) = Raised (RequestException cause) ->
  scrape_url W settings false u n
  = ([Invoked STATIC u; HttpGet (requested_url u)],
     inr (Service (OtherException
                     (lit "Failed to scrape website: Failed to fetch webpage: "
                      ++ cause)))).
Proof.
  intros E. unfold scrape_url, scrape_page, asyncio_run. simpl.
  unfold bind. rewrite static_run, E. reflexivity.
Qed.

(** X14.  Without a running loop, [scrape_url] returns a text exactly when
    the AUTO result is a success, and a text it returns is never empty: it
    has at least the 24 characters of a section header. *)
Theorem scrape_url_text_never_empty
        (W : World) (settings : Settings) (u : str) (n : Z) :
  exists r,
    returned (scrape_page_async W settings u AUTO n) r
    /\ (success r = true ->
        snd (scrape_url W settings false u n) = inl (content r)
        /\ 24 <= len (content r))
    /\ (success r = false ->
        exists e, snd (scrape_url W settings false u n) = inr e).
Proof.
  destruct (orchestrator_returns W settings u AUTO n) as (t & r & E).
  assert (R : returned (scrape_page_async W settings u AUTO n) r)
    by (unfold returned; now rewrite E).
  exists r. split; [exact R|].
  unfold scrape_url, scrape_page, asyncio_run.
  cbn [get_running_loop is_runtime_error]. rewrite E.
  split; intros Hs; rewrite Hs; cbn.
  - split; [reflexivity | now apply (auto_success_length W settings u n)].
  - eauto.
Qed.

(* ================================================================== *)
(** ** Properties of the scan limits *)
(* ================================================================== *)

Section ScanLimits.

Lemma put_same (db : Table) (k : str) (v : User) : put db k v k = Some v.
Proof. unfold put. now rewrite str_eqb_refl. Qed.

Lemma put_other (db : Table) (k k' : str) (v : User) :
  k' <> k -> put db k v k' = db k'.
Proof.
  intros H. unfold put. destruct (str_eqb k' k) eqn:E; [|reflexivity].
  apply str_eqb_eq in E. congruence.
Qed.

Lemma get_or_create_user_row (db : Table) (uid : str) :
  snd (get_or_create_user db uid) uid = Some (fst (get_or_create_user db uid))
  /\ (forall k, k <> uid -> snd (get_or_create_user db uid) k = db k)
  /\ (forall user, db uid = Some user ->
                   get_or_create_user db uid = (user, db))
  /\ (db uid = None ->
      fst (get_or_create_user db uid)
      = {| is_paid := false; last_scan_date := None;
           daily_scan_count := 0 |}).
Proof.
  unfold get_or_create_user. destruct (db uid) as [user|] eqn:E; simpl.
  - repeat split; try congruence; auto.
  - repeat split; try congruence; auto using put_same, put_other.
Qed.

Lemma another_day_today (today : Z) : another_day (Some today) today = false.
Proof. simpl. now rewrite Z.eqb_refl. Qed.

(** The free branch of [check_scan_limit], for a user found with row
    [user]. *)
Lemma check_free_found (db : Table) (uid : str) (today : Z) (user : User) :
  privileged uid = false -> db uid = Some user -> is_paid user = false ->
  check_scan_limit false db uid today
  = if another_day (last_scan_date user) today
    then ((true, lit "Free scan available (1 remaining today)"),
          put db uid {| is_paid := false; last_scan_date := Some today;
                        daily_scan_count := 0 |})
    else if 1 <=? daily_scan_count user
         then ((false, limit_reached_message), db)
         else ((true, lit "Free scan available ("
                      ++ str_of_int (1 - daily_scan_count user)
                      ++ lit " remaining today)"), db).
Proof.
  intros Hp Hu Hpaid. unfold check_scan_limit, get_or_create_user.
  rewrite Hu. unfold privileged in Hp. rewrite Hp, Hpaid.
  destruct (another_day (last_scan_date user) today); reflexivity.
Qed.

Lemma check_free_absent (db : Table) (uid : str) (today : Z) :
  privileged uid = false -> db uid = None ->
  check_scan_limit false db uid today
  = ((true, lit "Free scan available (1 remaining today)"),
     put (put db uid {| is_paid := false; last_scan_date := None;
                        daily_scan_count := 0 |})
         uid {| is_paid := false; last_scan_date := Some today;
                daily_scan_count := 0 |}).
Proof.
  intros Hp Hu. unfold check_scan_limit, get_or_create_user.
  rewrite Hu. unfold privileged in Hp. rewrite Hp. reflexivity.
Qed.

Lemma check_privileged (db : Table) (uid : str) (today : Z) :
  privileged uid = true ->
  check_scan_limit false db uid today
  = ((true, lit "Developer unlimited scans"),
     snd (get_or_create_user db uid)).
Proof.
  intros Hp. unfold check_scan_limit. unfold privileged in Hp.
  destruct (get_or_create_user db uid) as [user db']. now rewrite Hp.
Qed.

Lemma check_paid (db : Table) (uid : str) (today : Z) (user : User) :
  privileged uid = false -> db uid = Some user -> is_paid user = true ->
  check_scan_limit false db uid today
  = ((true, lit "Unlimited scans available"), db).
Proof.
  intros Hp E Hpaid. unfold check_scan_limit, get_or_create_user.
  unfold privileged in Hp. now rewrite E, Hp, Hpaid.
Qed.

Lemma increment_row (db : Table) (uid : str) (today : Z) :
  exists user,
    increment_scan_count db uid today uid = Some user
    /\ last_scan_date user = Some today
    /\ (forall old, db uid = Some old -> is_paid user = is_paid old)
    /\ (db uid = None -> is_paid user = false)
    /\ (daily_scan_count user = 1
        \/ exists old, db uid = Some old
                       /\ last_scan_date old = Some today
                       /\ daily_scan_count user = daily_scan_count old + 1).
Proof.
  unfold increment_scan_count, get_or_create_user.
  destruct (db uid) as [old|] eqn:E.
  - destruct (another_day (last_scan_date old) today) eqn:D;
      eexists; rewrite put_same; (split; [reflexivity|]); simpl.
    + split; [reflexivity|]. split; [now intros o [= <-]|].
      split; [discriminate|]. now left.
    + assert (L : last_scan_date old = Some today).
      { destruct (last_scan_date old) as [d|]; [|discriminate].
        simpl in D. apply negb_false_iff, Z.eqb_eq in D. now subst. }
      split; [exact L|]. split; [now intros o [= <-]|].
      split; [discriminate|]. right. now exists old.
  - eexists. rewrite put_same. split; [reflexivity|]. simpl.
    split; [reflexivity|]. split; [discriminate|].
    split; [reflexivity|]. now left.
Qed.

Lemma increment_other (db : Table) (uid k : str) (today : Z) :
  k <> uid -> increment_scan_count db uid today k = db k.
Proof.
  intros H. unfold increment_scan_count, get_or_create_user.
  destruct (db uid); rewrite !put_other by assumption; reflexivity.
Qed.

End ScanLimits.

Lemma another_day_other (last : option Z) (today : Z) :
  last <> Some today -> another_day last today = true.
Proof.
  destruct last as [d|]; [|reflexivity]. intros H. simpl.
  apply negb_true_iff, Z.eqb_neq. congruence.
Qed.

(** X15.  One free scan a day, with scan limits switched on
    ([disable_scan_limits] false): once a scan has been recorded today for a
    user who is neither paid nor privileged, the next check of the same day
    refuses, with the message that asks to upgrade. *)
Theorem one_free_scan_per_day (db : Table) (uid : str) (today : Z) :
  free_user db uid -> counts_nonneg db ->
  fst (check_scan_limit false (increment_scan_count db uid today) uid today)
  = (false, limit_reached_message).
Proof.
  intros [Hp Hfree] Hnn.
  destruct (increment_row db uid today) as (user & Eu & Hl & Hk & Ha & Hc).
  assert (Hpaid : is_paid user = false).
  { destruct (db uid) as [old|] eqn:E; [|now apply Ha].
    rewrite (Hk old eq_refl). now apply Hfree. }
  assert (Hcount : 1 <= daily_scan_count user).
  { destruct Hc as [-> | (old & Eo & _ & ->)]; [lia|].
    pose proof (Hnn uid old Eo). lia. }
  rewrite (check_free_found _ uid today user Hp Eu Hpaid).
  rewrite Hl, another_day_today.
  now rewrite (proj2 (Z.leb_le 1 _) Hcount).
Qed.

(** X16.  A new day gives the free scan back, with scan limits switched on
    ([disable_scan_limits] false): for a user who is neither paid nor
    privileged, unknown or last seen on another day, the check allows the
    scan whatever the stored count was, and leaves the row dated today with
    a count of 0. *)
Theorem new_day_restores_free_scan (db : Table) (uid : str) (today : Z) :
  free_user db uid ->
  (forall user, db uid = Some user -> last_scan_date user <> Some today) ->
  fst (check_scan_limit false db uid today)
  = (true, lit "Free scan available (1 remaining today)")
  /\ snd (check_scan_limit false db uid today) uid
     = Some {| is_paid := false; last_scan_date := Some today;
               daily_scan_count := 0 |}.
Proof.
  intros [Hp Hfree] Hday. destruct (db uid) as [user|] eqn:E.
  - rewrite (check_free_found db uid today user Hp E (Hfree user eq_refl)).
    rewrite (another_day_other _ _ (Hday user eq_refl)). simpl.
    now rewrite put_same.
  - rewrite (check_free_absent db uid today Hp E). simpl.
    now rewrite put_same.
Qed.

(** X17.  Privileged identifiers ([admin_], [dev_]) and paid users are
    never refused, whatever their count; and with the limits disabled nobody
    is refused and the table is not touched, so that an unknown user is not
    even created. *)
Theorem unlimited_users_never_refused (db : Table) (uid : str) (today : Z) :
  (privileged uid = true \/ (exists user, db uid = Some user
                                          /\ is_paid user = true) ->
   fst (fst (check_scan_limit false db uid today)) = true)
  /\ check_scan_limit true db uid today
     = ((true, lit "Scan limits disabled for testing"), db).
Proof.
  split; [|reflexivity].
  unfold check_scan_limit, get_or_create_user, privileged.
  intros [Hp | (user & E & Hpaid)].
  - rewrite Hp. destruct (db uid); reflexivity.
  - rewrite E, Hpaid.
    destruct (startswith (lit "admin_") uid || startswith (lit "dev_") uid);
      reflexivity.
Qed.

(** X18.  Checking does not use up the scan: a second check on the same
    day gives the same answer as the first and leaves the table as the first
    left it. *)
Theorem check_does_not_consume (db : Table) (uid : str) (today : Z) :
  let first := check_scan_limit false db uid today in
  let second := check_scan_limit false (snd first) uid today in
  fst second = fst first /\ forall k, snd second k = snd first k.
Proof.
  cbv zeta. destruct (privileged uid) eqn:Hp.
  - rewrite !(check_privileged db uid today Hp). cbn [snd fst].
    rewrite (check_privileged _ uid today Hp). cbn [snd fst].
    split; [reflexivity|]. intros k.
    destruct (get_or_create_user_row db uid) as (Hrow & _).
    destruct (get_or_create_user_row (snd (get_or_create_user db uid)) uid)
      as (_ & _ & Hfound & _).
    now rewrite (Hfound _ Hrow).
  - destruct (db uid) as [user|] eqn:E.
    + destruct (is_paid user) eqn:Hpaid.
      * rewrite (check_paid db uid today user Hp E Hpaid). cbn [snd fst].
        rewrite (check_paid db uid today user Hp E Hpaid). now split.
      * rewrite (check_free_found db uid today user Hp E Hpaid).
        destruct (another_day (last_scan_date user) today) eqn:D.
        -- cbn [snd fst].
           rewrite (check_free_found _ uid today
                      {| is_paid := false; last_scan_date := Some today;
                         daily_scan_count := 0 |}
                      Hp (put_same _ _ _) eq_refl).
           cbn [last_scan_date daily_scan_count]. rewrite another_day_today.
           now split.
        -- destruct (1 <=? daily_scan_count user) eqn:C; cbn [snd fst];
             rewrite (check_free_found db uid today user Hp E Hpaid), D, C;
             now split.
    + rewrite (check_free_absent db uid today Hp E). cbn [snd fst].
      rewrite (check_free_found _ uid today
                 {| is_paid := false; last_scan_date := Some today;
                    daily_scan_count := 0 |}
                 Hp (put_same _ _ _) eq_refl).
      cbn [last_scan_date daily_scan_count]. rewrite another_day_today.
      now split.
Qed.

(** X19.  The three operations on one user leave every other user's row
    as it was. *)
Theorem other_users_untouched
        (off : bool) (db : Table) (uid k : str) (today : Z) :
  k <> uid ->
  snd (check_scan_limit off db uid today) k = db k
  /\ increment_scan_count db uid today k = db k
  /\ snd (reset_user_scans db uid) k = db k.
Proof.
  intros H. split; [|split].
  - unfold check_scan_limit, get_or_create_user.
    destruct off; [reflexivity|].
    destruct (db uid) as [user|];
      destruct (startswith (lit "admin_") uid || startswith (lit "dev_") uid);
      cbn [is_paid last_scan_date another_day];
      try destruct (is_paid user);
      try destruct (another_day (last_scan_date user) today);
      try destruct (1 <=? daily_scan_count user);
      cbn; rewrite ?put_other by assumption; reflexivity.
  - now apply increment_other.
  - unfold reset_user_scans. destruct (db uid); cbn;
      rewrite ?put_other by assumption; reflexivity.
Qed.

(** X20.  The stored counts never become negative: if no count in the
    table is negative, none is after a check, after recording a scan or
    after a reset. *)
Theorem scan_counts_never_negative
        (off : bool) (db : Table) (uid : str) (today : Z) :
  counts_nonneg db ->
  counts_nonneg (snd (check_scan_limit off db uid today))
  /\ counts_nonneg (increment_scan_count db uid today)
  /\ counts_nonneg (snd (reset_user_scans db uid)).
Proof.
  intros Hnn.
  assert (Hput : forall (t : Table) v, counts_nonneg t ->
                   0 <= daily_scan_count v -> counts_nonneg (put t uid v)).
  { intros t v Ht Hv k user. unfold put.
    destruct (str_eqb k uid); [intros [= <-]; exact Hv | apply Ht]. }
  split; [|split].
  - unfold check_scan_limit, get_or_create_user.
    destruct off; [exact Hnn|].
    destruct (db uid) as [user|];
      destruct (startswith (lit "admin_") uid || startswith (lit "dev_") uid);
      cbn [is_paid last_scan_date another_day];
      try destruct (is_paid user);
      try destruct (another_day (last_scan_date user) today);
      try destruct (1 <=? daily_scan_count user);
      cbn; repeat apply Hput; simpl; try lia; exact Hnn.
  - unfold increment_scan_count, get_or_create_user.
    destruct (db uid) as [user|] eqn:E.
    + destruct (another_day (last_scan_date user) today);
        apply Hput; simpl; try lia; try exact Hnn.
      pose proof (Hnn uid user E). lia.
    + cbn. repeat apply Hput; simpl; try lia; exact Hnn.
  - unfold reset_user_scans. destruct (db uid); cbn;
      [apply Hput; simpl; [exact Hnn | lia] | exact Hnn].
Qed.

(* ================================================================== *)
(** ** Properties of the endpoint *)
(* ================================================================== *)

Section EndpointFacts.

Variable W : World.
Variable settings : Settings.
Variable off : bool.
Variable Dict AnalysisResult : Type.
Variable analyze_fine_print : str -> outcome Dict.
Variable build : Dict -> outcome AnalysisResult.

Lemma clean_length_le (text : str) (m : Z) :
  0 <= m -> len (clean_and_deduplicate_text text m) <= m + 23.
Proof.
  intros Hm. unfold clean_and_deduplicate_text, slice_to.
  rewrite (proj2 (Z.leb_le 0 m) Hm).
  destruct (m <? len (deduplicated text)) eqn:E.
  - apply Z.ltb_lt in E. rewrite len_app. unfold len in *.
    rewrite length_firstn.
    change (Z.of_nat (length truncation_marker)) with 23. lia.
  - apply Z.ltb_ge in E. lia.
Qed.

Lemma analyze_url_run (u uid : str) (db : Table) (d1 d2 : Z)
      (t : list Event) (r : ScrapeResult) :
  scrape_page_async W settings u AUTO 5 = (t, Returned r) ->
  analyze_url W settings off Dict AnalysisResult analyze_fine_print build
              u uid db d1 d2
  = let chk := check_scan_limit off db uid d1 in
    let cleaned := clean_and_deduplicate_text (content r) default_max_length in
    if negb (fst (fst chk))
    then ([], HTTPException 429 (lit "FREE_LIMIT_REACHED") (snd (fst chk)),
          snd chk)
    else if negb (success r)
    then (t, HTTPException 422 (lit "SCRAPING_FAILED")
               (lit "Failed to scrape website: " ++ format_optional (error r)),
          snd chk)
    else if len cleaned <? static_content_threshold settings
    then (t, HTTPException 422 (lit "INSUFFICIENT_CONTENT")
               insufficient_content_message, snd chk)
    else match analyze_fine_print cleaned with
         | Raised e => (t, analysis_failed AnalysisResult e, snd chk)
         | Returned dict =>
             match build dict with
             | Raised e => (t, analysis_failed AnalysisResult e, snd chk)
             | Returned a =>
                 (t, Analyzed a (lit "Analysis completed successfully"),
                  increment_scan_count (snd chk) uid d2)
             end
         end.
Proof.
  intros E. unfold analyze_url. cbv zeta.
  destruct (check_scan_limit off db uid d1) as [[can msg] db1].
  cbn [fst snd]. destruct can; cbn [negb]; [|reflexivity].
  rewrite E. reflexivity.
Qed.

End EndpointFacts.

(** X21.  A refused scan costs nothing: when the check refuses, the
    endpoint answers 429 [FREE_LIMIT_REACHED] with the message of the check,
    makes no call to the scraper, and leaves the table as the check left
    it. *)
Theorem refused_scan_does_nothing
        (W : World) (settings : Settings) (off : bool)
        (Dict AnalysisResult : Type)
        (analyze_fine_print : str -> outcome Dict)
        (build : Dict -> outcome AnalysisResult)
        (u uid : str) (db : Table) (d1 d2 : Z) :
  fst (fst (check_scan_limit off db uid d1)) = false ->
  analyze_url W settings off Dict AnalysisResult analyze_fine_print build
              u uid db d1 d2
  = ([], HTTPException 429 (lit "FREE_LIMIT_REACHED")
                       (snd (fst (check_scan_limit off db uid d1))),
     snd (check_scan_limit off db uid d1)).
Proof.
  intros H.
  destruct (orchestrator_returns W settings u AUTO 5) as (t & r & E).
  rewrite (analyze_url_run W settings off Dict AnalysisResult
             analyze_fine_print build u uid db d1 d2 t r E).
  cbv zeta. now rewrite H.
Qed.

(** X22.  A scan is recorded only for a completed analysis: when the
    endpoint answers with an analysis, the table is the one the check left
    with the scan recorded; when it answers with any error, the table is the
    one the check left. *)
Theorem scan_recorded_only_on_success
        (W : World) (settings : Settings) (off : bool)
        (Dict AnalysisResult : Type)
        (analyze_fine_print : str -> outcome Dict)
        (build : Dict -> outcome AnalysisResult)
        (u uid : str) (db : Table) (d1 d2 : Z) :
  match analyze_url W settings off Dict AnalysisResult analyze_fine_print
                    build u uid db d1 d2 with
  | (_, Analyzed _ _, db') =>
      db' = increment_scan_count (snd (check_scan_limit off db uid d1)) uid d2
  | (_, HTTPException _ _ _, db') =>
      db' = snd (check_scan_limit off db uid d1)
  end.
Proof.
  destruct (orchestrator_returns W settings u AUTO 5) as (t & r & E).
  rewrite (analyze_url_run W settings off Dict AnalysisResult
             analyze_fine_print build u uid db d1 d2 t r E).
  cbv zeta.
  destruct (negb (fst (fst (check_scan_limit off db uid d1))));
    [reflexivity|].
  destruct (negb (success r)); [reflexivity|].
  destruct (len _ <? static_content_threshold settings); [reflexivity|].
  destruct (analyze_fine_print _) as [dict|e]; [|reflexivity].
  destruct (build dict); reflexivity.
Qed.

(** X23.  The analysis client is only given text that is long enough: when
    the endpoint answers with an analysis, the client was asked about the
    normalized content of a successful scrape, of at least
    [static_content_threshold] and at most 100023 characters. *)
Theorem analysis_sees_enough_text
        (W : World) (settings : Settings) (off : bool)
        (Dict AnalysisResult : Type)
        (analyze_fine_print : str -> outcome Dict)
        (build : Dict -> outcome AnalysisResult)
        (u uid : str) (db : Table) (d1 d2 : Z)
        (t : list Event) (a : AnalysisResult) (msg : str) (db' : Table) :
  analyze_url W settings off Dict AnalysisResult analyze_fine_print build
              u uid db d1 d2
  = (t, Analyzed a msg, db') ->
  exists r dict,
    returned (scrape_page_async W settings u AUTO 5) r
    /\ success r = true
    /\ analyze_fine_print
         (clean_and_deduplicate_text (content r) default_max_length)
       = Returned dict
    /\ build dict = Returned a
    /\ static_content_threshold settings
       <= len (clean_and_deduplicate_text (content r) default_max_length)
       <= 100023.
Proof.
  destruct (orchestrator_returns W settings u AUTO 5) as (t0 & r & E).
  rewrite (analyze_url_run W settings off Dict AnalysisResult
             analyze_fine_print build u uid db d1 d2 t0 r E).
  cbv zeta.
  destruct (negb (fst (fst (check_scan_limit off db uid d1))));
    [discriminate|].
  destruct (success r) eqn:Hs; cbn [negb]; [|discriminate].
  destruct (len _ <? static_content_threshold settings) eqn:Hl;
    [discriminate|].
  destruct (analyze_fine_print _) as [dict|e] eqn:Ha; [|discriminate].
  destruct (build dict) as [a0|e] eqn:Hb; [|discriminate].
  intros [= _ <- _ _]. exists r, dict.
  split; [unfold returned; now rewrite E|].
  repeat split; try assumption.
  - now apply Z.ltb_ge in Hl.
  - pose proof (clean_length_le (content r) default_max_length) as H.
    unfold default_max_length in *. lia.
Qed.

(** X24.  When the user may scan and the main page cannot be fetched, the
    endpoint answers 422 [SCRAPING_FAILED] with the chained message
    [Failed to scrape website: Failed to fetch webpage: <cause>], after the
    one request, and records no scan. *)
Theorem endpoint_reports_fetch_failure
        (W : World) (settings : Settings) (off : bool)
        (Dict AnalysisResult : Type)
        (analyze_fine_print : str -> outcome Dict)
        (build : Dict -> outcome AnalysisResult)
        (u uid cause : str) (db : Table) (d1 d2 : Z) :
  fst (fst (check_scan_limit off db uid d1)) = true ->
  requests_get W (requested_url u) = Raised (RequestException cause) ->
  analyze_url W settings off Dict AnalysisResult analyze_fine_print build
              u uid db d1 d2
  = ([Invoked STATIC u; HttpGet (requested_url u)],
     HTTPException 422 (lit "SCRAPING_FAILED")
       (lit "Failed to scrape website: Failed to fetch webpage: " ++ cause),
     snd (check_scan_limit off db uid d1)).
Proof.
  intros Hc Hf.
  assert (E : scrape_page_async W settings u AUTO 5
              = ([Invoked STATIC u; HttpGet (requested_url u)],
                 Returned (failure STATIC u
                             (lit "Failed to fetch webpage: " ++ cause)))).
  { unfold scrape_page_async, bind. rewrite static_run, Hf. reflexivity. }
  rewrite (analyze_url_run W settings off Dict AnalysisResult
             analyze_fine_print build u uid db d1 d2 _ _ E).
  cbv zeta. rewrite Hc. reflexivity.
Qed.

(** X25.  Every error answer of the endpoint is one of 429
    [FREE_LIMIT_REACHED], 422 [SCRAPING_FAILED], 422 [INSUFFICIENT_CONTENT]
    and 500 [ANALYSIS_FAILED], the last with a message that begins
    [Failed to analyze offer: ].  A failed scrape is never answered as a
    server error: when the check lets the user scan and the scrape result
    is a failure, the answer is 422 [SCRAPING_FAILED] with the message
    [Failed to scrape website: <error>], whatever the analysis client would
    do. *)
Theorem scrape_failure_is_not_server_error
        (W : World) (settings : Settings) (off : bool)
        (Dict AnalysisResult : Type)
        (analyze_fine_print : str -> outcome Dict)
        (build : Dict -> outcome AnalysisResult)
        (u uid : str) (db : Table) (d1 d2 : Z)
        (t : list Event) (code : Z) (err msg : str) (db' : Table) :
  analyze_url W settings off Dict AnalysisResult analyze_fine_print build
              u uid db d1 d2
  = (t, HTTPException code err msg, db') ->
  ((code = 429 /\ err = lit "FREE_LIMIT_REACHED")
   \/ (code = 422 /\ err = lit "SCRAPING_FAILED")
   \/ (code = 422 /\ err = lit "INSUFFICIENT_CONTENT")
   \/ (code = 500 /\ err = lit "ANALYSIS_FAILED"
       /\ exists e, msg = lit "Failed to analyze offer: " ++ str_of_exn e))
  /\ (forall r,
         fst (fst (check_scan_limit off db uid d1)) = true ->
         returned (scrape_page_async W settings u AUTO 5) r ->
         success r = false ->
         code = 422 /\ err = lit "SCRAPING_FAILED"
         /\ msg = lit "Failed to scrape website: "
                  ++ format_optional (error r)).
Proof.
  destruct (orchestrator_returns W settings u AUTO 5) as (t0 & r & E).
  rewrite (analyze_url_run W settings off Dict AnalysisResult
             analyze_fine_print build u uid db d1 d2 t0 r E).
  cbv zeta. unfold returned. rewrite E. cbn [result_of snd].
  destruct (fst (fst (check_scan_limit off db uid d1))); cbn [negb];
    [|intros [= _ <- <- _ _]; split; [auto | discriminate]].
  destruct (success r) eqn:Hs; cbn [negb].
  - assert (Hno : forall r' : ScrapeResult,
               Returned r = Returned r' -> success r' = false -> False).
    { intros r' [= <-] H. congruence. }
    destruct (len _ <? static_content_threshold settings);
      [intros [= _ <- <- _ _]; split;
       [auto | intros r' _ Hr Hf; destruct (Hno r' Hr Hf)]|].
    destruct (analyze_fine_print _) as [dict|e].
    + destruct (build dict) as [a0|e]; [discriminate|].
      unfold analysis_failed. intros [= _ <- <- <- _].
      split; [|intros r' _ Hr Hf; destruct (Hno r' Hr Hf)].
      do 3 right. repeat split. now exists e.
    + unfold analysis_failed. intros [= _ <- <- <- _].
      split; [|intros r' _ Hr Hf; destruct (Hno r' Hr Hf)].
      do 3 right. repeat split. now exists e.
  - intros [= _ <- <- <- _]. split; [auto|].
    intros r' _ [= <-] _. auto.
Qed.

(* ================================================================== *)
(** ** Further properties of the normalizer *)
(* ================================================================== *)

Lemma collapsed_chars (s : str) :
  forall b, collapsed b s = true ->
  forall c, In c s -> is_space c = true -> c = space.
Proof.
  induction s as [|a r IH]; intros b H c Hin Hc; [destruct Hin|].
  simpl in H. destruct Hin as [<-|Hin].
  - rewrite Hc in H. destruct (ascii_dec a space); [assumption|discriminate].
  - destruct (is_space a).
    + apply andb_true_iff in H. destruct H as [_ H]. now apply (IH true).
    + now apply (IH false).
Qed.

Lemma collapsed_no_double (s : str) (b : bool) :
  collapsed b s = true -> ~ occurs_in [space; space] s.
Proof.
  intros H (before & after & ->).
  apply collapsed_app in H. destruct H as [_ H].
  simpl in H. discriminate H.
Qed.

Lemma filter_none {A} (f : A -> bool) (l : list A) :
  (forall x, In x l -> f x = false) -> filter f l = [].
Proof.
  induction l as [|a r IH]; intros H; simpl; [reflexivity|].
  rewrite (H a (or_introl eq_refl)). apply IH. intros x Hx. apply H. now right.
Qed.

Lemma slice_to_prefix {A} (xs : list A) (n : Z) :
  exists rest, xs = slice_to xs n ++ rest.
Proof.
  unfold slice_to. destruct (0 <=? n); eexists; symmetry; apply firstn_skipn.
Qed.

Lemma clean_collapsed (text : str) (m : Z) :
  collapsed false (clean_and_deduplicate_text text m) = true
  /\ no_lead_space (clean_and_deduplicate_text text m) = true.
Proof.
  destruct (join_kept _ (unique_sentences_kept text)) as [Hc Hn].
  fold (deduplicated text) in Hc, Hn.
  unfold clean_and_deduplicate_text.
  destruct (m <? len (deduplicated text)); [|now split].
  destruct (slice_to_prefix (deduplicated text) m) as [rest E].
  rewrite E in Hc, Hn. apply collapsed_app in Hc. destruct Hc as [Hc _].
  apply no_lead_prefix in Hn. split.
  - change truncation_marker with (dot :: lit ".. [content truncated]").
    rewrite (collapsed_app_char _ _ dot dot_not_space), Hc. reflexivity.
  - destruct (slice_to (deduplicated text) m); [reflexivity | exact Hn].
Qed.

(** X26.  Whatever the input and the maximum length, the output of the
    normalizer has its whitespace normalized: it does not begin with
    whitespace, its only whitespace character is the space, and no two
    spaces are adjacent. *)
Theorem normalizer_output_whitespace (text : str) (max_length : Z) :
  no_lead_space (clean_and_deduplicate_text text max_length) = true
  /\ (forall c, In c (clean_and_deduplicate_text text max_length) ->
                is_space c = true -> c = space)
  /\ ~ occurs_in [space; space] (clean_and_deduplicate_text text max_length).
Proof.
  destruct (clean_collapsed text max_length) as [Hc Hn].
  split; [exact Hn|]. split.
  - now apply (collapsed_chars _ false).
  - now apply (collapsed_no_double _ false).
Qed.

(** X27.  A text without a sentence of more than 10 characters, in
    particular an empty text or one of whitespace only, is normalized to the
    empty string, for every maximum length that is not negative. *)
Theorem normalizer_empty_without_long_sentence (text : str) (max_length : Z) :
  0 <= max_length ->
  (forall s, In s (trimmed_sentences text) -> len s <= 10) ->
  clean_and_deduplicate_text text max_length = [].
Proof.
  intros Hm Hshort.
  assert (E : unique_sentences text = []).
  { rewrite unique_sentences_spec.
    rewrite filter_none; [reflexivity|].
    intros s Hs. unfold long_enough. apply Z.ltb_ge. now apply Hshort. }
  unfold clean_and_deduplicate_text, deduplicated. rewrite E.
  change (len (join sentence_sep [])) with 0.
  now rewrite (proj2 (Z.ltb_ge max_length 0) Hm).
Qed.

(* ================================================================== *)
(** ** Further properties of the discoverer, the extractor and the settings *)
(* ================================================================== *)

(** X28.  The link discoverer calls [urljoin] on the anchors that have an
    [href] and whose text or [href] matches one of the terms patterns, in
    document order.  When one of these calls raises, the discoverer raises
    that exception, the first in document order, and returns no list.  When
    none raises, it returns, without duplicates and in the order of their
    first occurrence, exactly the resolved URLs that start with [http]. *)
Theorem discoverer_returns_first_occurrences
        (urljoin : str -> str -> outcome str) (soup : node) (base_url : str) :
  let anchors := find_all [lit "a"] (Present (lit "href")) soup in
  let matching link :=
    In link anchors
    /\ is_terms_link (lower (get_text [] true link))
                     (attr_text (lit "href") link) = true in
  find_terms_links urljoin soup base_url
  = match candidate_urls urljoin anchors base_url with
    | Raised e => Raised e
    | Returned urls =>
        Returned (first_occurrences (filter (startswith (lit "http")) urls))
    end
  /\ (forall links,
         find_terms_links urljoin soup base_url = Returned links ->
         NoDup links
         /\ forall u,
              In u links
              <-> startswith (lit "http") u = true
                  /\ exists link,
                       matching link
                       /\ urljoin base_url (attr_text (lit "href") link)
                          = Returned u)
  /\ (forall e,
         find_terms_links urljoin soup base_url = Raised e ->
         exists link,
           matching link
           /\ urljoin base_url (attr_text (lit "href") link) = Raised e)
  /\ ((forall link,
          matching link ->
          exists u,
            urljoin base_url (attr_text (lit "href") link) = Returned u) ->
      exists links, find_terms_links urljoin soup base_url = Returned links).
Proof.
  cbv zeta. split; [apply find_terms_links_spec|].
  rewrite find_terms_links_spec. unfold candidate_urls, matching_anchors.
  split; [|split].
  - intros links E.
    destruct (join_all urljoin base_url _) as [urls|e] eqn:Ej; [|discriminate].
    injection E as <-. split; [apply first_occurrences_NoDup|].
    intros u. rewrite first_occurrences_In, filter_In.
    rewrite (join_all_In urljoin _ _ _ Ej u). split.
    + intros [(link & Hl & El) Hh]. apply filter_In in Hl.
      split; [exact Hh|]. now exists link.
    + intros [Hh (link & Hl & El)]. split; [|exact Hh].
      exists link. split; [|exact El]. now apply filter_In.
  - intros e E.
    destruct (join_all urljoin base_url _) as [urls|e'] eqn:Ej; [discriminate|].
    injection E as <-. apply join_all_raised in Ej.
    destruct Ej as (link & Hl & El). apply filter_In in Hl.
    now exists link.
  - intros H.
    destruct (join_all_returns urljoin base_url
                (filter (fun link =>
                           is_terms_link (lower (get_text [] true link))
                                         (attr_text (lit "href") link))
                        (find_all [lit "a"] (Present (lit "href")) soup)))
      as (urls & ->).
    + intros link Hl. apply filter_In in Hl. now apply H.
    + now eexists.
Qed.

(** X29.  The extractor's output contains the visible text of every [div],
    [section], [p] or [span] whose class matches
    [disclaimer|fine-?print|legal|terms], of every [div], [section] or [p]
    whose id matches it, and of every [small] element; and it contains,
    trimmed, every line of the page text that holds an asterisk. *)
Theorem extractor_includes_marked_text (soup : node) :
  (forall e,
      In e (descendants soup) ->
      selected [lit "div"; lit "section"; lit "p"; lit "span"]
               (Matches (lit "class") disclaimer_re) e = true
      \/ selected [lit "div"; lit "section"; lit "p"]
                  (Matches (lit "id") disclaimer_re) e = true
      \/ selected [lit "small"] NoFilter e = true ->
      occurs_in (get_text [space] true e) (extract_fine_print_sections soup))
  /\ (forall line,
         In line (split newline (get_text [newline] false soup)) ->
         contains (lit "*") line = true ->
         occurs_in (strip line) (extract_fine_print_sections soup)).
Proof.
  split.
  - intros e Hin Hsel.
    destruct (list_eq_dec ascii_dec (get_text [space] true e) []) as [E|N].
    { rewrite E. now exists [], (extract_fine_print_sections soup). }
    apply join_occurs. unfold fine_print_text.
    apply in_or_app. right.
    destruct Hsel as [H | [H | H]].
    + apply in_or_app. left. apply texts_of_In; [|assumption].
      apply filter_In. now split.
    + apply in_or_app. right. apply in_or_app. left.
      apply texts_of_In; [|assumption]. apply filter_In. now split.
    + apply in_or_app. right. apply in_or_app. right. apply in_or_app. left.
      apply texts_of_In; [|assumption]. apply filter_In. now split.
  - intros line Hin Hstar. apply join_occurs. unfold fine_print_text.
    do 4 (apply in_or_app; right). unfold asterisk_lines.
    apply in_map. apply filter_In. now split.
Qed.

Lemma split_length (c : ascii) (s : str) :
  length (split c s) = S (count_occ ascii_dec s c).
Proof.
  induction s as [|a r IH]; [reflexivity|].
  cbn [split count_occ]. destruct (ascii_dec a c) as [E|N].
  - simpl. now rewrite IH.
  - destruct (split c r) as [|h t]; [discriminate IH|]. exact IH.
Qed.

(** X30.  [cors_origins_list] never returns an empty list: it has one
    entry more than the setting has commas (a single empty entry for an
    empty setting); no entry holds a comma or has whitespace around it. *)
Theorem cors_origins_list_entries (cors_origins : str) :
  length (cors_origins_list cors_origins)
  = S (count_occ ascii_dec cors_origins comma)
  /\ cors_origins_list [] = [[]]
  /\ forall origin,
       In origin (cors_origins_list cors_origins) ->
       ~ In comma origin /\ strip origin = origin.
Proof.
  unfold cors_origins_list. split; [|split; [reflexivity|]].
  - rewrite length_map. apply split_length.
  - intros origin Hin. apply in_map_iff in Hin.
    destruct Hin as (piece & <- & Hp). split; [|apply strip_idem].
    intros Hc. apply strip_incl in Hc.
    exact (proj1 (Forall_forall _ _) (split_pieces comma _) piece Hp Hc).
Qed.

(* ================================================================== *)
(** ** The further properties at concrete inputs *)
(* ================================================================== *)

Lemma static_run_on_success_witness :
  _scrape_static stalled_world example_url 5
  = ([Invoked STATIC example_url; HttpGet example_url],
     Returned
       {| url := example_url; final_url := example_url;
          content := [newline] ++ lit "=== FULL PAGE CONTENT ==="
                     ++ [newline] ++ lit "Hello world";
          char_count := 38; mode_used := STATIC; success := true;
          error := None |})
  /\ _scrape_static broken_world example_url 5
     = ([Invoked STATIC example_url; HttpGet example_url],
        Returned (failure STATIC example_url (lit "Invalid IPv6 URL"))).
Proof.
  split.
  - destruct (static_run_on_success stalled_world example_url 5
                (lit "<p>Hello world</p>") example_url) as [Hok _];
      [reflexivity|].
    rewrite (Hok []); reflexivity.
  - destruct (static_run_on_success broken_world example_url 5
                (lit "<a href=//[terms>Terms</a>") example_url) as [_ Hraise];
      [reflexivity|].
    rewrite (Hraise (OtherException (lit "Invalid IPv6 URL"))); reflexivity.
Defined.

Lemma static_run_on_failure_witness :
  _scrape_static offline_world (lit "example.com") 5
  = ([Invoked STATIC (lit "example.com"); HttpGet (lit "https://example.com")],
     Returned (failure STATIC (lit "example.com")
                       (lit "Failed to fetch webpage: Connection refused"))).
Proof.
  rewrite (static_run_on_failure offline_world (lit "example.com") 5
             (RequestException (lit "Connection refused"))); reflexivity.
Defined.

Lemma static_request_bound_witness :
  count is_http_get (trace (_scrape_static terms_world example_url 5)) <= 1 + 5.
Proof. apply (static_request_bound terms_world example_url 5). lia. Defined.

Lemma static_success_has_full_page_section_witness :
  occurs_in ([newline] ++ lit "=== FULL PAGE CONTENT ===" ++ [newline])
            ([newline] ++ lit "=== FULL PAGE CONTENT ==="
             ++ [newline] ++ lit "Hello world")
  /\ 27 <= 38.
Proof.
  apply (static_success_has_full_page_section stalled_world example_url 5
           {| url := example_url; final_url := example_url;
              content := [newline] ++ lit "=== FULL PAGE CONTENT ==="
                         ++ [newline] ++ lit "Hello world";
              char_count := 38; mode_used := STATIC; success := true;
              error := None |}); reflexivity.
Defined.

Lemma browser_closed_iff_page_opened_witness :
  exists t,
    trace (_scrape_dynamic stalled_world default_settings example_url)
    = t ++ [BrowserClose].
Proof.
  apply (browser_closed_iff_page_opened stalled_world default_settings
           example_url). reflexivity.
Defined.



Lemma disabled_dynamic_never_touches_browser_witness :
  scrape_page_async stalled_world static_only_settings example_url DYNAMIC 5
  = _scrape_static stalled_world example_url 5.
Proof.
  apply (disabled_dynamic_never_touches_browser stalled_world
           static_only_settings example_url DYNAMIC 5). reflexivity.
Defined.

Lemma orchestrator_result_names_its_strategy_witness :
  exists r,
    returned (scrape_page_async offline_world default_settings example_url
                                DYNAMIC 5) r
    /\ mode_used r = DYNAMIC.
Proof.
  destruct (orchestrator_result_names_its_strategy offline_world
              default_settings example_url DYNAMIC 5)
    as (r & Hr & _ & _ & _ & Hd).
  exists r. split; [exact Hr|]. now apply Hd.
Defined.

Lemma scrape_url_reports_fetch_failure_witness :
  snd (scrape_url offline_world default_settings false example_url 5)
  = inr (Service (OtherException
                    (lit "Failed to scrape website: Failed to fetch webpage: Connection refused"))).
Proof.
  rewrite (scrape_url_reports_fetch_failure offline_world default_settings
             example_url (lit "Connection refused") 5); reflexivity.
Defined.

Lemma one_free_scan_per_day_witness :
  fst (check_scan_limit false
         (increment_scan_count empty_table example_user 739000)
         example_user 739000)
  = (false, limit_reached_message).
Proof.
  apply (one_free_scan_per_day empty_table example_user 739000).
  - split; [reflexivity | intros user H; discriminate H].
  - intros k user H. discriminate H.
Defined.

Lemma new_day_restores_free_scan_witness :
  fst (check_scan_limit false
         (increment_scan_count empty_table example_user 739000)
         example_user 739001)
  = (true, lit "Free scan available (1 remaining today)").
Proof.
  apply (new_day_restores_free_scan
           (increment_scan_count empty_table example_user 739000)
           example_user 739001).
  - split; [reflexivity|]. intros user H. vm_compute in H.
    injection H as <-. reflexivity.
  - intros user H. vm_compute in H. injection H as <-. discriminate.
Defined.

Lemma unlimited_users_never_refused_witness :
  fst (fst (check_scan_limit false
              (increment_scan_count empty_table (lit "dev_laptop") 739000)
              (lit "dev_laptop") 739000)) = true.
Proof.
  apply (proj1 (unlimited_users_never_refused
                  (increment_scan_count empty_table (lit "dev_laptop") 739000)
                  (lit "dev_laptop") 739000)).
  left. reflexivity.
Defined.

Lemma other_users_untouched_witness :
  increment_scan_count empty_table example_user 739000 (lit "user456") = None.
Proof.
  apply (other_users_untouched false empty_table example_user (lit "user456")
           739000). discriminate.
Defined.

Lemma scan_counts_never_negative_witness :
  counts_nonneg (increment_scan_count empty_table example_user 739000).
Proof.
  apply (scan_counts_never_negative false empty_table example_user 739000).
  intros k user H. discriminate H.
Defined.

Lemma refused_scan_does_nothing_witness :
  fst (analyze_url terms_world default_settings false str str
                   echo_client echo_client example_url example_user
                   (increment_scan_count empty_table example_user 739000)
                   739000 739000)
  = ([], HTTPException 429 (lit "FREE_LIMIT_REACHED") limit_reached_message).
Proof.
  rewrite (refused_scan_does_nothing terms_world default_settings false
             str str echo_client echo_client example_url example_user
             (increment_scan_count empty_table example_user 739000)
             739000 739000); reflexivity.
Defined.

Lemma endpoint_reports_fetch_failure_witness :
  fst (analyze_url offline_world default_settings false str str
                   echo_client echo_client example_url example_user
                   empty_table 739000 739000)
  = ([Invoked STATIC example_url; HttpGet example_url],
     HTTPException 422 (lit "SCRAPING_FAILED")
       (lit "Failed to scrape website: Failed to fetch webpage: Connection refused")).
Proof.
  rewrite (endpoint_reports_fetch_failure offline_world default_settings false
             str str echo_client echo_client example_url example_user
             (lit "Connection refused") empty_table 739000 739000);
    reflexivity.
Defined.

Lemma normalizer_empty_without_long_sentence_witness :
  clean_and_deduplicate_text (lit "   Hi there.  OK.   ") default_max_length
  = [].
Proof.
  apply (normalizer_empty_without_long_sentence
           (lit "   Hi there.  OK.   ") default_max_length).
  - unfold default_max_length. lia.
  - intros s H. vm_compute in H.
    destruct H as [<- | [<- | [<- | []]]]; vm_compute; discriminate.
Defined.

Lemma extractor_includes_marked_text_witness :
  occurs_in (lit "*Fees apply") (extract_fine_print_sections linked_page).
Proof.
  apply (proj2 (extractor_includes_marked_text linked_page)
               (lit " *Fees apply ")).
  - vm_compute. right. right. right. right. left. reflexivity.
  - reflexivity.
Defined.

Lemma cors_origins_list_entries_witness :
  strip (lit "http://127.0.0.1:*") = lit "http://127.0.0.1:*".
Proof.
  apply (proj2 (proj2 (cors_origins_list_entries default_cors_origins))).
  vm_compute. right. left. reflexivity.
Defined.

Lemma scrape_url_text_never_empty_witness :
  exists text,
    snd (scrape_url terms_world default_settings false example_url 5)
    = inl text
    /\ 24 <= len text.
Proof.
  destruct (scrape_url_text_never_empty terms_world default_settings
              example_url 5) as (r & Hr & Hok & _).
  exists (content r). apply Hok.
  vm_compute in Hr. injection Hr as <-. reflexivity.
Defined.

Lemma analysis_sees_enough_text_witness :
  exists r,
    returned (scrape_page_async terms_world default_settings example_url
                                AUTO 5) r
    /\ 200 <= len (clean_and_deduplicate_text (content r) default_max_length)
       <= 100023.
Proof.
  edestruct (analysis_sees_enough_text terms_world default_settings false
               str str echo_client echo_client example_url example_user
               empty_table 739000 739000)
    as (r & dict & Hr & _ & _ & _ & Hlen).
  - vm_compute. reflexivity.
  - exists r. split; [exact Hr | exact Hlen].
Defined.

Lemma scrape_failure_is_not_server_error_witness :
  (500 = 500 /\ lit "ANALYSIS_FAILED" = lit "ANALYSIS_FAILED"
   /\ exists e,
        lit "Failed to analyze offer: Rate limit exceeded"
        = lit "Failed to analyze offer: " ++ str_of_exn e)
  /\ 422 = 422.
Proof.
  split.
  - edestruct (scrape_failure_is_not_server_error terms_world
                 default_settings false str str failing_client echo_client
                 example_url example_user empty_table 739000 739000)
      as [[[Hc _] | [[Hc _] | [[Hc _] | Hserver]]] _].
    + vm_compute. reflexivity.
    + discriminate Hc.
    + discriminate Hc.
    + discriminate Hc.
    + exact Hserver.
  - edestruct (scrape_failure_is_not_server_error offline_world
                 default_settings false str str echo_client echo_client
                 example_url example_user empty_table 739000 739000)
      as [_ Hscrape].
    + vm_compute. reflexivity.
    + edestruct Hscrape as [Hc _].
      * reflexivity.
      * vm_compute. reflexivity.
      * reflexivity.
      * exact Hc.
Defined.

Lemma discoverer_returns_first_occurrences_witness :
  exists link,
    In link (find_all [lit "a"] (Present (lit "href")) half_broken_page)
    /\ strict_join example_url (attr_text (lit "href") link)
       = Raised (OtherException (lit "Invalid IPv6 URL")).
Proof.
  destruct (discoverer_returns_first_occurrences strict_join half_broken_page
              example_url) as (_ & _ & Hraise & _).
  destruct (Hraise (OtherException (lit "Invalid IPv6 URL")))
    as (link & [Hin _] & Hjoin); [reflexivity|].
  exists link. split; [exact Hin | exact Hjoin].
Defined.
